(** * tcconfig: traffic_control.py

    A shallow embedding of [tcconfig/traffic_control.py] (class
    [TrafficControl] and the module-level helper
    [_validate_within_min_max]) together with the properties of its
    identifier derivation, parameter validation, redirect-device setup and
    teardown.

    Conventions.
    - Python [int] is [Z]; a finite Python number (int or float) that is
      only compared is a rational [Q]; [None] is [option]'s [None].
    - Python [str] / byte strings are [string] (a sequence of 8-bit
      characters, which is exactly the domain on which [six.b] is defined).
    - A raising computation returns [Err e]; a computation that talks to
      the host (external commands, interface lookup, iptables) is a state
      transformer over the host state that also logs every call it makes. *)

From Stdlib Require Import ZArith QArith String Ascii List Bool Lia.
From Stdlib Require Import DecimalString HexadecimalString.
From Stdlib Require Import DecimalPos DecimalZ HexadecimalPos HexadecimalZ.
Import ListNotations.

Local Open Scope string_scope.
Local Open Scope Z_scope.

(* ------------------------------------------------------------------ *)
(** * Exceptions and results *)

(** The text of an exception.  Messages built with a numeric format
    ([{:f}], [{}]) keep the formatted arguments as data instead of their
    rendering. *)
Inductive message : Type :=
| Msg (text : string)
| TooHigh (param_name : string) (max_value value : Q)
    (* "{:s} is too high: expected<={:f}[%], value={:f}[%]" *)
| TooLow (param_name : string) (min_value value : Q)
    (* "{:s} is too low: expected>={:f}[%], value={:f}[%]" *)
| RateNotPositive (actual : Q).
    (* "rate must be greater than zero: actual={}" *)

Inductive exn : Type :=
| ValueError (m : message)
| TypeError (m : message)
| UnboundLocalError (variable : string)
| EmptyParameterError (m : message)
| InvalidParameterError (m : message)
| NetworkInterfaceNotFoundError (m : message).

Inductive result (A : Type) : Type :=
| Ok (a : A)
| Err (e : exn).
Arguments Ok {A} a.
Arguments Err {A} e.

Definition rbind {A B : Type} (r : result A) (k : A -> result B) : result B :=
  match r with
  | Ok a => k a
  | Err e => Err e
  end.

Definition raises {A : Type} (r : result A) : bool :=
  match r with Ok _ => false | Err _ => true end.

(* ------------------------------------------------------------------ *)
(** * hashlib.md5

    RFC 1321 on byte lists; a 32-bit word is a [Z] reduced modulo 2^32. *)

Module MD5.

Definition word := Z.
Definition wmask (x : Z) : word := x mod 2 ^ 32.
Definition wadd (x y : word) : word := wmask (x + y).
Definition wnot (x : word) : word := Z.lxor x (2 ^ 32 - 1).
Definition rotl (x : word) (c : Z) : word :=
  wmask (Z.lor (Z.shiftl x c) (Z.shiftr x (32 - c))).

Definition S_table : list Z :=
  [ 7; 12; 17; 22; 7; 12; 17; 22; 7; 12; 17; 22; 7; 12; 17; 22;
    5; 9; 14; 20; 5; 9; 14; 20; 5; 9; 14; 20; 5; 9; 14; 20;
    4; 11; 16; 23; 4; 11; 16; 23; 4; 11; 16; 23; 4; 11; 16; 23;
    6; 10; 15; 21; 6; 10; 15; 21; 6; 10; 15; 21; 6; 10; 15; 21 ].

(** K[i] = floor(2^32 * |sin (i + 1)|) *)
Definition K_table : list Z :=
  [ 3614090360; 3905402710; 606105819; 3250441966;
    4118548399; 1200080426; 2821735955; 4249261313;
    1770035416; 2336552879; 4294925233; 2304563134;
    1804603682; 4254626195; 2792965006; 1236535329;
    4129170786; 3225465664; 643717713; 3921069994;
    3593408605; 38016083; 3634488961; 3889429448;
    568446438; 3275163606; 4107603335; 1163531501;
    2850285829; 4243563512; 1735328473; 2368359562;
    4294588738; 2272392833; 1839030562; 4259657740;
    2763975236; 1272893353; 4139469664; 3200236656;
    681279174; 3936430074; 3572445317; 76029189;
    3654602809; 3873151461; 530742520; 3299628645;
    4096336452; 1126891415; 2878612391; 4237533241;
    1700485571; 2399980690; 4293915773; 2240044497;
    1873313359; 4264355552; 2734768916; 1309151649;
    4149444226; 3174756917; 718787259; 3951481745 ].

Record state : Type := mkState { sA : word; sB : word; sC : word; sD : word }.

Definition init_state : state :=
  mkState 0x67452301 0xefcdab89 0x98badcfe 0x10325476.

(** Little-endian decoding of four bytes, and encoding of a word. *)
Definition word_of_bytes (bs : list Z) : word :=
  nth 0 bs 0 + 256 * nth 1 bs 0 + 65536 * nth 2 bs 0 + 16777216 * nth 3 bs 0.

Definition bytes_of_word (w : word) : list Z :=
  [ w mod 256; (w / 256) mod 256; (w / 65536) mod 256; (w / 16777216) mod 256 ].

Fixpoint words_of_bytes (n : nat) (bs : list Z) : list word :=
  match n with
  | O => []
  | S n' => word_of_bytes (firstn 4 bs) :: words_of_bytes n' (skipn 4 bs)
  end.

(** One of the 64 operations on a block [M] of sixteen words. *)
Definition round_step (M : list word) (st : state) (i : nat) : state :=
  let '(mkState a b c d) := st in
  let iz := Z.of_nat i in
  let '(f, g) :=
    if iz <? 16 then (Z.lor (Z.land b c) (Z.land (wnot b) d), iz)
    else if iz <? 32 then
      (Z.lor (Z.land d b) (Z.land (wnot d) c), (5 * iz + 1) mod 16)
    else if iz <? 48 then (Z.lxor (Z.lxor b c) d, (3 * iz + 5) mod 16)
    else (Z.lxor c (Z.lor b (wnot d)), (7 * iz) mod 16) in
  let f' := wadd (wadd (wadd f a) (nth i K_table 0)) (nth (Z.to_nat g) M 0) in
  mkState d (wadd b (rotl f' (nth i S_table 0))) b c.

Definition process_block (st : state) (block : list Z) : state :=
  let M := words_of_bytes 16 block in
  let st' := fold_left (round_step M) (seq 0 64) st in
  mkState (wadd (sA st) (sA st')) (wadd (sB st) (sB st'))
          (wadd (sC st) (sC st')) (wadd (sD st) (sD st')).

(** Padding: a 1 bit, zeros up to 56 modulo 64, the bit length on 8
    little-endian bytes. *)
Definition length_bytes (bits : Z) : list Z :=
  map (fun k => (bits / 256 ^ Z.of_nat k) mod 256) (seq 0 8).

Definition pad (data : list Z) : list Z :=
  let len := Z.of_nat (length data) in
  let zeros := Z.to_nat ((55 - len) mod 64) in
  data ++ [128] ++ repeat 0 zeros ++ length_bytes (8 * len).

Fixpoint blocks (fuel : nat) (bs : list Z) : list (list Z) :=
  match fuel with
  | O => []
  | S fuel' =>
      match bs with
      | [] => []
      | _ => firstn 64 bs :: blocks fuel' (skipn 64 bs)
      end
  end.

Definition final_state (data : list Z) : state :=
  let padded := pad data in
  fold_left process_block (blocks (length padded) padded) init_state.

Definition digest (data : list Z) : list Z :=
  let st := final_state data in
  bytes_of_word (sA st) ++ bytes_of_word (sB st)
    ++ bytes_of_word (sC st) ++ bytes_of_word (sD st).

End MD5.

(* ------------------------------------------------------------------ *)
(** * Strings, bytes and number formatting *)

(** [six.b]: the bytes of a (latin-1) string. *)
Definition six_b (s : string) : list Z :=
  map (fun c => Z.of_N (N_of_ascii c)) (list_ascii_of_string s).

Definition hex_digit (n : Z) : ascii :=
  nth (Z.to_nat n)
    (list_ascii_of_string "0123456789abcdef") "0"%char.

(** [hexdigest]: two lower-case hexadecimal digits per byte. *)
Fixpoint hexlify (bs : list Z) : string :=
  match bs with
  | [] => EmptyString
  | b :: bs' =>
      String (hex_digit (b / 16)) (String (hex_digit (b mod 16)) (hexlify bs'))
  end.

Definition md5_hexdigest (data : list Z) : string :=
  hexlify (MD5.digest data).

(** [int(s, 16)] on a string of hexadecimal digits.  (Python also accepts
    a sign, a [0x] prefix, blanks and underscores; a hexdigest has none.) *)
Definition hex_value (c : ascii) : option Z :=
  let n := Z.of_N (N_of_ascii c) in
  if (48 <=? n) && (n <=? 57) then Some (n - 48)
  else if (97 <=? n) && (n <=? 102) then Some (n - 87)
  else if (65 <=? n) && (n <=? 70) then Some (n - 55)
  else None.

Fixpoint int_digits16 (acc : Z) (s : string) : option Z :=
  match s with
  | EmptyString => Some acc
  | String c s' =>
      match hex_value c with
      | Some d => int_digits16 (16 * acc + d) s'
      | None => None
      end
  end.

Definition int_16 (s : string) : result Z :=
  match s with
  | EmptyString => Err (ValueError (Msg "invalid literal for int() with base 16"))
  | _ =>
      match int_digits16 0 s with
      | Some n => Ok n
      | None => Err (ValueError (Msg "invalid literal for int() with base 16"))
      end
  end.

(** ["{:d}".format(n)] and ["{:x}".format(n)]. *)
Definition format_d (n : Z) : string :=
  DecimalString.NilZero.string_of_int (Z.to_int n).

Definition format_x (n : Z) : string :=
  HexadecimalString.NilZero.string_of_int (Z.to_hex_int n).

(** [sep.join(l)]. *)
Fixpoint join (sep : string) (l : list string) : string :=
  match l with
  | [] => EmptyString
  | [x] => x
  | x :: l' => x ++ sep ++ join sep l'
  end.

(** [dataproperty.is_empty_string] on a [str]: nothing is left after
    [strip()]. *)
Definition is_space (c : ascii) : bool :=
  let n := Z.of_N (N_of_ascii c) in
  (n =? 32) || ((9 <=? n) && (n <=? 13)).

Definition is_empty_string (s : string) : bool :=
  forallb is_space (list_ascii_of_string s).

(** A Python value that is [None] or a [str]. *)
Definition pystr : Type := option string.

Definition pystr_eqb (a b : pystr) : bool :=
  match a, b with
  | None, None => true
  | Some x, Some y => String.eqb x y
  | _, _ => false
  end.

(** Comparisons of finite numbers. *)
Definition Qgtb (x y : Q) : bool := negb (Qle_bool x y).
Definition Qltb (x y : Q) : bool := negb (Qle_bool y x).

(** [dataproperty.FloatType(value).is_type()] on a value that is [None] or
    a finite number. *)
Definition FloatType_is_type (value : option Q) : bool :=
  match value with
  | Some _ => true
  | None => false
  end.

(** [value == 0]. *)
Definition eq_zero (value : option Q) : bool :=
  match value with
  | Some v => Qeq_bool v 0
  | None => false
  end.

(** Modelled from the spec: [tcconfig/_traffic_direction.py] (class
    [TrafficDirection]) is not among the sources; the spec gives the enum
    OUTGOING, INCOMING, and [get_tc_device] concatenates a direction to a
    [str], so the two members are distinct strings. *)
Module TrafficDirection.
Definition OUTGOING : pystr := Some "outgoing".
Definition INCOMING : pystr := Some "incoming".
End TrafficDirection.

(* ------------------------------------------------------------------ *)
(** * [_validate_within_min_max] *)

Definition _validate_within_min_max
    (param_name : string) (value : option Q) (min_value max_value : Q)
  : result unit :=
  match value with
  | None => Ok tt
  | Some v =>
      if Qgtb v max_value then
        Err (ValueError (TooHigh param_name max_value v))
      else if Qltb v min_value then
        Err (ValueError (TooLow param_name min_value v))
      else Ok tt
  end.

(* ------------------------------------------------------------------ *)
(** * class TrafficControl: the object *)

Record TrafficControl : Type := mkTrafficControl {
  device : string;
  direction : pystr;
  bandwidth_rate : option Q;      (* kilo units, after conversion *)
  latency_ms : option Q;
  latency_distro_ms : option Q;
  packet_loss_rate : option Q;
  corruption_rate : option Q;
  network : pystr;
  src_network : pystr;
  port : option Z;
  is_enable_iptables : bool;
  qdisc_major_id : Z
}.

Definition set_network (self : TrafficControl) (v : pystr) : TrafficControl :=
  mkTrafficControl (device self) (direction self) (bandwidth_rate self)
    (latency_ms self) (latency_distro_ms self) (packet_loss_rate self)
    (corruption_rate self) v (src_network self) (port self)
    (is_enable_iptables self) (qdisc_major_id self).

Definition set_src_network (self : TrafficControl) (v : pystr) : TrafficControl :=
  mkTrafficControl (device self) (direction self) (bandwidth_rate self)
    (latency_ms self) (latency_distro_ms self) (packet_loss_rate self)
    (corruption_rate self) (network self) v (port self)
    (is_enable_iptables self) (qdisc_major_id self).

Definition NETEM_QDISC_MAJOR_ID_OFFSET : Z := 10.

Definition MIN_PACKET_LOSS_RATE : Q := 0.
Definition MAX_PACKET_LOSS_RATE : Q := 100.
Definition MIN_LATENCY_MS : Q := 0.
Definition MAX_LATENCY_MS : Q := 10000.
Definition MIN_CORRUPTION_RATE : Q := 0.
Definition MAX_CORRUPTION_RATE : Q := 100.
Definition MIN_PORT : Q := 0.
Definition MAX_PORT : Q := 65535.

Definition REGEXP_FILE_EXISTS : string := "RTNETLINK answers: File exists".

Definition EXISTS_MSG_TEMPLATE (s : string) : string :=
  s ++ " "
    ++ "execute with --overwrite option if you want to overwrite "
    ++ "the existing settings.".

Definition ifb_device (self : TrafficControl) : string :=
  "ifb" ++ format_d (qdisc_major_id self).

Definition qdisc_major_id_str (self : TrafficControl) : string :=
  format_x (qdisc_major_id self).

(* ------------------------------------------------------------------ *)
(** * Methods that do not touch the host *)

Definition __get_device_qdisc_major_id (self : TrafficControl) : result Z :=
  let base_device_hash := substring 0 3 (md5_hexdigest (six_b (device self))) in
  let device_hash_prefix := "1" in
  int_16 (device_hash_prefix ++ base_device_hash).

Definition validate_bandwidth_rate (self : TrafficControl) : result unit :=
  if negb (FloatType_is_type (bandwidth_rate self)) then
    Err (EmptyParameterError (Msg "bandwidth_rate is empty"))
  else
    match bandwidth_rate self with
    | Some rate =>
        if Qle_bool rate 0 then
          Err (InvalidParameterError (RateNotPositive rate))
        else Ok tt
    | None => Ok tt (* not reached: FloatType rejects None *)
    end.

Definition get_tc_device (self : TrafficControl) : result string :=
  if pystr_eqb (direction self) TrafficDirection.OUTGOING then
    Ok (device self)
  else if pystr_eqb (direction self) TrafficDirection.INCOMING then
    Ok (ifb_device self)
  else
    (* raise ValueError("unknown direction: " + self.direction) *)
    match direction self with
    | Some d => Err (ValueError (Msg ("unknown direction: " ++ d)))
    | None =>
        Err (TypeError (Msg "cannot concatenate 'str' and 'NoneType' objects"))
    end.

Definition get_netem_qdisc_major_id (self : TrafficControl) (base_id : Z)
  : result Z :=
  let direction_offset : option Z :=
    if pystr_eqb (direction self) TrafficDirection.OUTGOING then Some 0
    else if pystr_eqb (direction self) TrafficDirection.INCOMING then Some 1
    else None (* the local is never bound *) in
  match direction_offset with
  | Some direction_offset =>
      Ok (base_id + NETEM_QDISC_MAJOR_ID_OFFSET + direction_offset)
  | None => Err (UnboundLocalError "direction_offset")
  end.

Definition __validate_network_delay (self : TrafficControl) : result unit :=
  rbind (_validate_within_min_max "latency_ms" (latency_ms self)
           MIN_LATENCY_MS MAX_LATENCY_MS) (fun _ =>
  _validate_within_min_max "latency_distro_ms" (latency_distro_ms self)
    MIN_LATENCY_MS MAX_LATENCY_MS).

Definition __validate_packet_loss_rate (self : TrafficControl) : result unit :=
  _validate_within_min_max "packet_loss_rate" (packet_loss_rate self)
    MIN_PACKET_LOSS_RATE MAX_PACKET_LOSS_RATE.

Definition __validate_corruption_rate (self : TrafficControl) : result unit :=
  _validate_within_min_max "corruption_rate" (corruption_rate self)
    MIN_CORRUPTION_RATE MAX_CORRUPTION_RATE.

Definition __validate_port (self : TrafficControl) : result unit :=
  _validate_within_min_max "port" (option_map inject_Z (port self))
    MIN_PORT MAX_PORT.

Definition is_EmptyParameterError (e : exn) : bool :=
  match e with EmptyParameterError _ => true | _ => false end.

Definition is_NetworkInterfaceNotFoundError (e : exn) : bool :=
  match e with NetworkInterfaceNotFoundError _ => true | _ => false end.

(** [try: body / except cls: handler] on a pure computation. *)
Definition rtry {A : Type} (body : result A) (cls : exn -> bool)
    (handler : result A) : result A :=
  match body with
  | Ok a => Ok a
  | Err e => if cls e then handler else Err e
  end.

Definition __validate_netem_parameter (self : TrafficControl) : result unit :=
  rbind (rtry (validate_bandwidth_rate self) is_EmptyParameterError (Ok tt))
    (fun _ =>
  rbind (__validate_network_delay self) (fun _ =>
  rbind (__validate_packet_loss_rate self) (fun _ =>
  rbind (__validate_corruption_rate self) (fun _ =>
  let param_list :=
    [ bandwidth_rate self; latency_ms self;
      packet_loss_rate self; corruption_rate self ] in
  if forallb (fun value => negb (FloatType_is_type value) || eq_zero value)
       param_list
  then Err (ValueError (Msg "there is no valid net emulation parameter"))
  else Ok tt)))).

(* ------------------------------------------------------------------ *)
(** * The host: external commands, interfaces, iptables, the shaper *)

(** Every call that leaves [traffic_control.py]. *)
Inductive call : Type :=
| SubprocessRunner_run (command : string)
    (* SubprocessRunner(command).run() *)
| run_command_helper (command error_regexp message : string)
| verify_network_interface (device : string)
| IptablesMangleController_enable (flag : bool)
| IptablesMangleController_clear
| set_shaping (tc_obj : TrafficControl).
    (* TbfShaper(tc_obj).set_shaping() *)

(** What the host answers.  [W] is the host's state (kernel qdisc and
    device tables, mangle table).  Following the interfaces of the
    collaborators: a command yields its exit code, an interface is present
    or not, clearing the mangle table yields a value that tells whether
    rules were removed, the shaper returns or raises. *)
Record Host (W : Type) : Type := mkHost {
  host_run : string -> W -> Z * W;
  host_run_helper : string -> string -> string -> W -> Z * W;
  host_has_interface : string -> W -> bool;
  host_iptables_enable : bool -> W -> W;
  host_iptables_clear : W -> bool * W;
  host_set_shaping : TrafficControl -> W -> result unit * W;
  host_sanitize_network : pystr -> result pystr;
  host_humanreadable_to_kilobyte : pystr -> option Q
    (* [None]: the conversion raised ValueError *)
}.
Arguments host_run {W} _ _ _.
Arguments host_run_helper {W} _ _ _ _ _.
Arguments host_has_interface {W} _ _ _.
Arguments host_iptables_enable {W} _ _ _.
Arguments host_iptables_clear {W} _ _.
Arguments host_set_shaping {W} _ _ _.
Arguments host_sanitize_network {W} _ _.
Arguments host_humanreadable_to_kilobyte {W} _ _.

(** The state a method runs in: the host and the calls made so far. *)
Record machine (W : Type) : Type := mkMachine {
  world : W;
  calls : list call
}.
Arguments mkMachine {W} _ _.
Arguments world {W} _.
Arguments calls {W} _.

(** State and exceptions. *)
Definition M (S A : Type) : Type := S -> result A * S.

Definition ret {S A : Type} (a : A) : M S A := fun s => (Ok a, s).

Definition bind {S A B : Type} (c : M S A) (k : A -> M S B) : M S B :=
  fun s =>
    match c s with
    | (Ok a, s') => k a s'
    | (Err e, s') => (Err e, s')
    end.

Definition lift {S A : Type} (r : result A) : M S A := fun s => (r, s).

(** [try: body / except cls: handler]. *)
Definition try_except {S A : Type} (body : M S A) (cls : exn -> bool)
    (handler : M S A) : M S A :=
  fun s =>
    match body s with
    | (Ok a, s') => (Ok a, s')
    | (Err e, s') => if cls e then handler s' else (Err e, s')
    end.

Notation "x <- c ;; k" := (bind c (fun x => k))
  (at level 61, c at next level, right associativity).

(** [[f(x) for x in l]]: every element is evaluated, in order. *)
Fixpoint for_each {S A B : Type} (f : A -> M S B) (l : list A) : M S (list B) :=
  match l with
  | [] => ret []
  | x :: l' => y <- f x ;; ys <- for_each f l' ;; ret (y :: ys)
  end.

Section Methods.

Context {W : Type} (host : Host W).

Definition log (c : call) (m : machine W) : machine W :=
  mkMachine (world m) (calls m ++ [c])%list.

Definition do_SubprocessRunner_run (command : string) : M (machine W) Z :=
  fun m =>
    let m := log (SubprocessRunner_run command) m in
    let '(returncode, w) := host_run host command (world m) in
    (Ok returncode, mkMachine w (calls m)).

Definition do_run_command_helper (command error_regexp message : string)
  : M (machine W) Z :=
  fun m =>
    let m := log (run_command_helper command error_regexp message) m in
    let '(returncode, w) :=
      host_run_helper host command error_regexp message (world m) in
    (Ok returncode, mkMachine w (calls m)).

(** Modelled from the spec: [verify_network_interface] lives in
    [tcconfig/_common.py], which is not among the sources; by the spec
    [InterfaceNotFound] is raised when the named device does not exist on
    the host. *)
Definition do_verify_network_interface (device : string) : M (machine W) unit :=
  fun m =>
    let m := log (verify_network_interface device) m in
    if host_has_interface host device (world m) then (Ok tt, m)
    else (Err (NetworkInterfaceNotFoundError (Msg device)), m).

Definition do_IptablesMangleController_clear : M (machine W) bool :=
  fun m =>
    let m := log IptablesMangleController_clear m in
    let '(removed, w) := host_iptables_clear host (world m) in
    (Ok removed, mkMachine w (calls m)).

Definition do_set_shaping (tc_obj : TrafficControl) : M (machine W) unit :=
  fun m =>
    let m := log (set_shaping tc_obj) m in
    let '(r, w) := host_set_shaping host tc_obj (world m) in
    (r, mkMachine w (calls m)).

(** ** [__init__] *)

Definition __init__
    (device : string) (direction bandwidth_rate : pystr)
    (latency_ms latency_distro_ms packet_loss_rate corruption_rate : option Q)
    (network : pystr) (port : option Z) (src_network : pystr)
    (is_enable_iptables : bool) : M (machine W) TrafficControl :=
  let self :=
    mkTrafficControl device direction None latency_ms latency_distro_ms
      packet_loss_rate corruption_rate network src_network port
      is_enable_iptables 0 in
  id <- lift (__get_device_qdisc_major_id self) ;;
  let self :=
    mkTrafficControl device direction
      (host_humanreadable_to_kilobyte host bandwidth_rate)
      latency_ms latency_distro_ms packet_loss_rate corruption_rate
      network src_network port is_enable_iptables id in
  fun m =>
    let m := log (IptablesMangleController_enable is_enable_iptables) m in
    (Ok self,
     mkMachine (host_iptables_enable host is_enable_iptables (world m))
       (calls m)).

(** ** [validate]: the object is updated in place, so it is part of the
    state. *)

Definition on_host {A : Type} (c : M (machine W) A)
  : M (TrafficControl * machine W) A :=
  fun s => let '(r, m) := c (snd s) in (r, (fst s, m)).

Definition on_self {A : Type} (f : TrafficControl -> result A)
  : M (TrafficControl * machine W) A :=
  fun s => (f (fst s), s).

Definition update_self (f : TrafficControl -> TrafficControl)
  : M (TrafficControl * machine W) unit :=
  fun s => (Ok tt, (f (fst s), snd s)).

Definition validate : M (TrafficControl * machine W) unit :=
  _ <- (fun s => on_host (do_verify_network_interface (device (fst s))) s) ;;
  _ <- on_self __validate_netem_parameter ;;
  n <- on_self (fun self => host_sanitize_network host (network self)) ;;
  _ <- update_self (fun self => set_network self n) ;;
  n <- on_self (fun self => host_sanitize_network host (src_network self)) ;;
  _ <- update_self (fun self => set_src_network self n) ;;
  on_self __validate_port.

(** ** [__setup_ifb] and [set_tc] *)

Definition __setup_ifb (self : TrafficControl) : M (machine W) Z :=
  if negb (pystr_eqb (direction self) TrafficDirection.INCOMING) then ret 0
  else if is_empty_string (ifb_device self) then ret (-1)
  else
    let return_code := 0 in
    let command := "modprobe ifb" in
    r <- do_SubprocessRunner_run command ;;
    let return_code := Z.lor return_code r in
    r <- do_run_command_helper
           ("ip link add " ++ ifb_device self ++ " type ifb")
           REGEXP_FILE_EXISTS
           (EXISTS_MSG_TEMPLATE
              "failed to add ip link: ip link already exists.") ;;
    let return_code := Z.lor return_code r in
    let command := "ip link set dev " ++ ifb_device self ++ " up" in
    r <- do_SubprocessRunner_run command ;;
    let return_code := Z.lor return_code r in
    r <- do_run_command_helper
           ("tc qdisc add dev " ++ device self ++ " ingress")
           REGEXP_FILE_EXISTS
           (EXISTS_MSG_TEMPLATE
              "failed to add qdisc: ingress qdisc already exists.") ;;
    let return_code := Z.lor return_code r in
    id <- lift (__get_device_qdisc_major_id self) ;;
    let command_list :=
      [ "tc filter add";
        "dev " ++ device self;
        "parent ffff: protocol ip u32 match u32 0 0";
        "flowid " ++ format_x id ++ ":";
        "action mirred egress redirect";
        "dev " ++ ifb_device self ] in
    r <- do_SubprocessRunner_run (join " " command_list) ;;
    let return_code := Z.lor return_code r in
    ret return_code.

Definition set_tc (self : TrafficControl) : M (machine W) unit :=
  _ <- __setup_ifb self ;;
  do_set_shaping self.

(** ** [__delete_ifb_device] and [delete_tc] *)

Definition __delete_ifb_device (self : TrafficControl) : M (machine W) Z :=
  _ <- do_verify_network_interface (ifb_device self) ;;
  let command_list :=
    [ "tc qdisc del dev " ++ ifb_device self ++ " root";
      "ip link set dev " ++ ifb_device self ++ " down";
      "ip link delete " ++ ifb_device self ++ " type ifb" ] in
  codes <- for_each do_SubprocessRunner_run command_list ;;
  if forallb (fun code => negb (code =? 0)) codes then ret 2 else ret 0.

Definition any (l : list bool) : bool := existsb (fun b => b) l.

Definition delete_tc (self : TrafficControl) : M (machine W) bool :=
  let result_list : list bool := [] in
  returncode <- do_run_command_helper
      ("tc qdisc del dev " ++ device self ++ " root")
      "RTNETLINK answers: No such file or directory"
      "failed to delete qdisc: no qdisc for outgoing packets" ;;
  let result_list := (result_list ++ [returncode =? 0])%list in
  returncode <- do_run_command_helper
      ("tc qdisc del dev " ++ device self ++ " ingress")
      (join "|" [ "RTNETLINK answers: Invalid argument";
                  "RTNETLINK answers: No such file or directory" ])
      "failed to delete qdisc: no qdisc for incomming packets" ;;
  let result_list := (result_list ++ [returncode =? 0])%list in
  result_list <-
    try_except
      (code <- __delete_ifb_device self ;; ret (result_list ++ [code =? 0])%list)
      is_NetworkInterfaceNotFoundError
      (ret (result_list ++ [false])%list) ;;
  _ <- do_IptablesMangleController_clear ;;
  ret (any result_list).

End Methods.

(* ------------------------------------------------------------------ *)
(** * A scripted host, to run the methods on

    A command exits with 0 when it is in the script, where it is then
    crossed out, and with 2 otherwise; interfaces are those listed; the
    mangle table holds a number of rules. *)

Module Scripted.

Record world : Type := mkWorld {
  interfaces : list string;
  script : list string;
  mangle_rules : nat
}.

Fixpoint cross_out (command : string) (l : list string) : list string :=
  match l with
  | [] => []
  | c :: l' => if String.eqb c command then l' else c :: cross_out command l'
  end.

Definition run (command : string) (w : world) : Z * world :=
  if existsb (String.eqb command) (script w) then
    (0, mkWorld (interfaces w) (cross_out command (script w)) (mangle_rules w))
  else (2, w).

Definition host : Host world :=
  mkHost world
    run
    (fun command _ _ => run command)
    (fun device w => existsb (String.eqb device) (interfaces w))
    (fun _ w => w)
    (fun w => (negb (Nat.eqb (mangle_rules w) 0),
               mkWorld (interfaces w) (script w) 0))
    (fun _ w => (Ok tt, w))
    (fun n => Ok n)
    (fun _ => None).

Definition boot (w : world) : machine world := mkMachine w [].

End Scripted.

(** The object [TrafficControl("eth0", direction=...)]; 6682 is
    [int("1a1a", 16)]. *)
Definition eth0 (direction : pystr) : TrafficControl :=
  mkTrafficControl "eth0" direction None None None None None None None None
    true 6682.

(** The object [TrafficControl("eth0", ...)] with the given emulation
    parameters, direction OUTGOING. *)
Definition eth0_netem
    (bandwidth_rate latency_ms latency_distro_ms
       packet_loss_rate corruption_rate : option Q) (port : option Z)
  : TrafficControl :=
  mkTrafficControl "eth0" TrafficDirection.OUTGOING bandwidth_rate
    latency_ms latency_distro_ms packet_loss_rate corruption_rate
    None None port true 6682.

(* ------------------------------------------------------------------ *)
(** * Vocabulary of the statements *)

(** What a check of [value] against the bounds [min_value], [max_value]
    has to answer: nothing to say on an absent value, acceptance exactly
    inside the closed interval, and outside of it an error with the name
    of the parameter, the bound that is violated and the value. *)
Definition bounds_checked (param_name : string) (value : option Q)
    (min_value max_value : Q) (r : result unit) : Prop :=
  match value with
  | None => r = Ok tt
  | Some v =>
      ((min_value <= v <= max_value)%Q <-> r = Ok tt)
      /\ ((max_value < v)%Q ->
          r = Err (ValueError (TooHigh param_name max_value v)))
      /\ ((v < min_value)%Q ->
          r = Err (ValueError (TooLow param_name min_value v)))
  end.

Definition within (value : option Q) (min_value max_value : Q) : Prop :=
  match value with
  | None => True
  | Some v => (min_value <= v <= max_value)%Q
  end.

Definition absent_or_zero (value : option Q) : Prop :=
  match value with
  | None => True
  | Some v => (v == 0)%Q
  end.

(** All four rate-affecting fields are absent or zero. *)
Definition no_effective_parameter (self : TrafficControl) : Prop :=
  absent_or_zero (bandwidth_rate self)
  /\ absent_or_zero (latency_ms self)
  /\ absent_or_zero (packet_loss_rate self)
  /\ absent_or_zero (corruption_rate self).

Definition NoEffectiveParameter : exn :=
  ValueError (Msg "there is no valid net emulation parameter").

(** The calls of a teardown: the two qdisc removals, the lookup of the
    redirect device, the three commands on it when it was found, the
    clearing of the mangle table. *)
Definition teardown_calls (self : TrafficControl) (ifb_found : bool)
  : list call :=
  ([ run_command_helper
       ("tc qdisc del dev " ++ device self ++ " root")
       "RTNETLINK answers: No such file or directory"
       "failed to delete qdisc: no qdisc for outgoing packets";
     run_command_helper
       ("tc qdisc del dev " ++ device self ++ " ingress")
       "RTNETLINK answers: Invalid argument|RTNETLINK answers: No such file or directory"
       "failed to delete qdisc: no qdisc for incomming packets";
     verify_network_interface (ifb_device self) ]
   ++ (if ifb_found then
         [ SubprocessRunner_run
             ("tc qdisc del dev " ++ ifb_device self ++ " root");
           SubprocessRunner_run
             ("ip link set dev " ++ ifb_device self ++ " down");
           SubprocessRunner_run
             ("ip link delete " ++ ifb_device self ++ " type ifb") ]
       else [])
   ++ [ IptablesMangleController_clear ])%list.

(** The outcome of each step of a teardown, read off the answers of the
    host: a qdisc removal succeeded when its command exited with 0; the
    redirect device step succeeded when the device was found and one of
    its three commands exited with 0; the clearing of the mangle table
    tells by itself whether it removed rules. *)
Record teardown_outcome : Type := mkOutcome {
  root_removed : bool;
  ingress_removed : bool;
  ifb_found : bool;
  ifb_removed : bool;
  firewall_cleared : bool
}.

Definition teardown_steps {W : Type} (host : Host W) (self : TrafficControl)
    (w : W) : teardown_outcome * W :=
  let '(c1, w) :=
    host_run_helper host
      ("tc qdisc del dev " ++ device self ++ " root")
      "RTNETLINK answers: No such file or directory"
      "failed to delete qdisc: no qdisc for outgoing packets" w in
  let '(c2, w) :=
    host_run_helper host
      ("tc qdisc del dev " ++ device self ++ " ingress")
      "RTNETLINK answers: Invalid argument|RTNETLINK answers: No such file or directory"
      "failed to delete qdisc: no qdisc for incomming packets" w in
  let found := host_has_interface host (ifb_device self) w in
  let '(removed, w) :=
    if found then
      let '(d1, w) :=
        host_run host ("tc qdisc del dev " ++ ifb_device self ++ " root") w in
      let '(d2, w) :=
        host_run host ("ip link set dev " ++ ifb_device self ++ " down") w in
      let '(d3, w) :=
        host_run host ("ip link delete " ++ ifb_device self ++ " type ifb") w in
      ((d1 =? 0) || (d2 =? 0) || (d3 =? 0), w)
    else (false, w) in
  let '(cleared, w) := host_iptables_clear host w in
  (mkOutcome (c1 =? 0) (c2 =? 0) found removed cleared, w).

(** The same object with another direction. *)
Definition set_direction (self : TrafficControl) (d : pystr) : TrafficControl :=
  mkTrafficControl (device self) d (bandwidth_rate self)
    (latency_ms self) (latency_distro_ms self) (packet_loss_rate self)
    (corruption_rate self) (network self) (src_network self) (port self)
    (is_enable_iptables self) (qdisc_major_id self).

Definition positive_or_absent (value : option Q) : Prop :=
  match value with
  | None => True
  | Some v => (0 < v)%Q
  end.



(** The exit codes of the five commands of the redirect-device setup, in
    the order in which the host is asked; [id] is the major id in the
    filter's flowid. *)
Definition setup_exit_codes {W : Type} (host : Host W) (self : TrafficControl)
    (id : Z) (w : W) : list Z * W :=
  let '(c1, w) := host_run host "modprobe ifb" w in
  let '(c2, w) :=
    host_run_helper host
      ("ip link add " ++ ifb_device self ++ " type ifb")
      "RTNETLINK answers: File exists"
      (EXISTS_MSG_TEMPLATE "failed to add ip link: ip link already exists.")
      w in
  let '(c3, w) :=
    host_run host ("ip link set dev " ++ ifb_device self ++ " up") w in
  let '(c4, w) :=
    host_run_helper host
      ("tc qdisc add dev " ++ device self ++ " ingress")
      "RTNETLINK answers: File exists"
      (EXISTS_MSG_TEMPLATE
         "failed to add qdisc: ingress qdisc already exists.")
      w in
  let '(c5, w) :=
    host_run host
      (join " "
         [ "tc filter add";
           "dev " ++ device self;
           "parent ffff: protocol ip u32 match u32 0 0";
           "flowid " ++ format_x id ++ ":";
           "action mirred egress redirect";
           "dev " ++ ifb_device self ]) w in
  ([c1; c2; c3; c4; c5], w).

(** The exit codes of the three commands that remove the redirect
    device. *)
Definition ifb_exit_codes {W : Type} (host : Host W) (self : TrafficControl)
    (w : W) : list Z * W :=
  let '(d1, w) :=
    host_run host ("tc qdisc del dev " ++ ifb_device self ++ " root") w in
  let '(d2, w) :=
    host_run host ("ip link set dev " ++ ifb_device self ++ " down") w in
  let '(d3, w) :=
    host_run host ("ip link delete " ++ ifb_device self ++ " type ifb") w in
  ([d1; d2; d3], w).

(** The sixteen values of a hexadecimal digit. *)
Definition nibbles : list Z := map Z.of_nat (seq 0 16).

(* ================================================================== *)
(** * Properties *)

(** ** hashlib.md5 against its test vectors *)

Example md5_empty :
  md5_hexdigest (six_b EmptyString) = "d41d8cd98f00b204e9800998ecf8427e".
Proof. vm_compute. reflexivity. Qed.

Example md5_abc :
  md5_hexdigest (six_b "abc") = "900150983cd24fb0d6963f7d28e17f72".
Proof. vm_compute. reflexivity. Qed.

Example md5_eth0 :
  md5_hexdigest (six_b "eth0") = "a1a5b3d22e82bbd6f878d26feacc2c7d".
Proof. vm_compute. reflexivity. Qed.

Example md5_two_blocks :
  md5_hexdigest
    (six_b "12345678901234567890123456789012345678901234567890123456789012345678901234567890")
  = "57edf4a22be3c955ac49da2e2107b67a".
Proof. vm_compute. reflexivity. Qed.

(** The fuel of [blocks] is enough: no byte of the padded message is
    dropped, and every block has 64 bytes. *)
Lemma blocks_concat (fuel : nat) (bs : list Z) :
  (length bs <= fuel)%nat -> concat (MD5.blocks fuel bs) = bs.
Proof.
  revert bs. induction fuel as [|fuel IH]; intros bs Hlen.
  - destruct bs; [reflexivity | simpl in Hlen; lia].
  - destruct bs as [|b bs']; [reflexivity|].
    change (MD5.blocks (S fuel) (b :: bs'))
      with (firstn 64 (b :: bs') :: MD5.blocks fuel (skipn 64 (b :: bs'))).
    cbn [concat]. rewrite IH.
    + apply firstn_skipn.
    + rewrite length_skipn. simpl length in *. lia.
Qed.

Lemma pad_length (data : list Z) :
  (Z.of_nat (length (MD5.pad data))) mod 64 = 0.
Proof.
  unfold MD5.pad, MD5.length_bytes.
  rewrite !length_app, repeat_length, length_map, length_seq.
  cbn [length].
  set (len := Z.of_nat (length data)).
  assert (H : 0 <= (55 - len) mod 64 < 64) by (apply Z.mod_pos_bound; lia).
  rewrite !Nat2Z.inj_add, Z2Nat.id by lia.
  fold len. change (Z.of_nat 1) with 1. change (Z.of_nat 8) with 8.
  replace (len + (1 + ((55 - len) mod 64 + 8)))
    with (64 + (len + (55 - len) mod 64 - 55)) by lia.
  rewrite (Z.mod_eq (55 - len) 64) by lia.
  replace (64 + (len + (55 - len - 64 * ((55 - len) / 64)) - 55))
    with ((1 - (55 - len) / 64) * 64) by lia.
  apply Z.mod_mul. lia.
Qed.

(** ** The device's qdisc major id *)

Lemma hex_value_hex_digit (n : Z) :
  0 <= n < 16 -> hex_value (hex_digit n) = Some n.
Proof.
  intros Hn. destruct n as [|p|p]; [reflexivity | | lia].
  do 4 (try destruct p as [p|p|]); try lia; reflexivity.
Qed.

(** The first three digits of a hexdigest are the twelve leading bits of
    the digest. *)
Lemma hexdigest_prefix (data : list Z) :
  let x0 := MD5.sA (MD5.final_state data) mod 256 in
  let x1 := (MD5.sA (MD5.final_state data) / 256) mod 256 in
  substring 0 3 (md5_hexdigest data)
  = String (hex_digit (x0 / 16))
      (String (hex_digit (x0 mod 16)) (String (hex_digit (x1 / 16)) EmptyString)).
Proof.
  unfold md5_hexdigest, MD5.digest.
  destruct (MD5.final_state data) as [a b c d].
  cbn [MD5.sA MD5.bytes_of_word app hexlify substring].
  reflexivity.
Qed.

Lemma int_16_three_digits (n1 n2 n3 : Z) :
  0 <= n1 < 16 -> 0 <= n2 < 16 -> 0 <= n3 < 16 ->
  int_16 ("1" ++ String (hex_digit n1)
                   (String (hex_digit n2) (String (hex_digit n3) EmptyString)))
  = Ok (4096 + 256 * n1 + 16 * n2 + n3).
Proof.
  intros H1 H2 H3.
  cbn [append int_16 int_digits16].
  change (hex_value "1") with (Some 1).
  cbv iota beta.
  rewrite !hex_value_hex_digit by assumption.
  f_equal. lia.
Qed.

Lemma device_qdisc_major_id_value (self : TrafficControl) :
  let a := MD5.sA (MD5.final_state (six_b (device self))) in
  __get_device_qdisc_major_id self
  = Ok (4096 + 256 * ((a mod 256) / 16) + 16 * ((a mod 256) mod 16)
        + ((a / 256) mod 256) / 16).
Proof.
  intros a. unfold __get_device_qdisc_major_id.
  rewrite hexdigest_prefix. fold a.
  assert (H0 : 0 <= a mod 256 < 256) by (apply Z.mod_pos_bound; lia).
  assert (H1 : 0 <= (a / 256) mod 256 < 256) by (apply Z.mod_pos_bound; lia).
  apply int_16_three_digits.
  - split; [apply Z.div_pos; lia | apply Z.div_lt_upper_bound; lia].
  - apply Z.mod_pos_bound; lia.
  - split; [apply Z.div_pos; lia | apply Z.div_lt_upper_bound; lia].
Qed.

Lemma device_qdisc_major_id_range (self : TrafficControl) :
  exists id, __get_device_qdisc_major_id self = Ok id /\ 4096 <= id <= 8191.
Proof.
  eexists. split; [apply device_qdisc_major_id_value|].
  set (a := MD5.sA (MD5.final_state (six_b (device self)))).
  assert (H0 : 0 <= a mod 256 < 256) by (apply Z.mod_pos_bound; lia).
  assert (H1 : 0 <= (a / 256) mod 256 < 256) by (apply Z.mod_pos_bound; lia).
  assert (0 <= (a mod 256) / 16 < 16)
    by (split; [apply Z.div_pos; lia | apply Z.div_lt_upper_bound; lia]).
  assert (0 <= (a mod 256) mod 16 < 16) by (apply Z.mod_pos_bound; lia).
  assert (0 <= ((a / 256) mod 256) / 16 < 16)
    by (split; [apply Z.div_pos; lia | apply Z.div_lt_upper_bound; lia]).
  lia.
Qed.

Lemma device_qdisc_major_id_same_device (a b : TrafficControl) :
  device a = device b ->
  __get_device_qdisc_major_id a = __get_device_qdisc_major_id b.
Proof. intros H. unfold __get_device_qdisc_major_id. now rewrite H. Qed.

(** C8. The base qdisc major id is defined for every device name: the
    derivation never raises, it only reads the device name (two objects
    on the same device get the same id), and the id is [0x1000] plus the
    twelve leading bits of the MD5 digest of the name -- the digit 1
    followed by the first three hexadecimal digits of the hexdigest -- so
    it always lies between [0x1000] and [0x1fff] and is never zero. *)
Theorem base_qdisc_major_id_total_and_bounded :
  forall self : TrafficControl,
    (exists id,
        __get_device_qdisc_major_id self = Ok id
        /\ 0x1000 <= id <= 0x1fff
        /\ id <> 0
        /\ id = 0x1000
                + 16 * nth 0 (MD5.digest (six_b (device self))) 0
                + nth 1 (MD5.digest (six_b (device self))) 0 / 16)
    /\ (forall other : TrafficControl,
           device other = device self ->
           __get_device_qdisc_major_id other = __get_device_qdisc_major_id self).
Proof.
  intros self. split.
  - destruct (device_qdisc_major_id_range self) as [id [Hid Hr]].
    exists id. repeat split; try lia; try assumption.
    pose proof (device_qdisc_major_id_value self) as Hv. cbv zeta in Hv.
    assert (Hd : Ok id = Ok (A := Z) _) by (rewrite <- Hid; exact Hv).
    assert (He : forall x y : Z, Ok x = Ok y -> x = y) by congruence.
    apply He in Hd. rewrite Hd. clear. unfold MD5.digest.
    destruct (MD5.final_state (six_b (device self))) as [a b c d].
    cbn [MD5.sA MD5.bytes_of_word app nth].
    assert (H0 : 0 <= a mod 256 < 256) by (apply Z.mod_pos_bound; lia).
    pose proof (Z.div_mod (a mod 256) 16 ltac:(lia)). lia.
  - intros other H. now apply device_qdisc_major_id_same_device.
Qed.

(** The theorem at the device "eth0": id 0x1a1a = 6682. *)
Lemma base_qdisc_major_id_eth0 :
  __get_device_qdisc_major_id (eth0 None) = Ok 6682
  /\ __get_device_qdisc_major_id (eth0 TrafficDirection.INCOMING)
     = __get_device_qdisc_major_id (eth0 None).
Proof.
  split.
  - vm_compute. reflexivity.
  - apply (proj2 (base_qdisc_major_id_total_and_bounded (eth0 None))
             (eth0 TrafficDirection.INCOMING)).
    reflexivity.
Defined.

(** ** Directions *)

Lemma pystr_eqb_eq (a b : pystr) : pystr_eqb a b = true <-> a = b.
Proof.
  destruct a as [x|], b as [y|]; simpl; try (split; congruence).
  rewrite String.eqb_eq. split; congruence.
Qed.

Lemma pystr_eqb_neq (a b : pystr) : pystr_eqb a b = false <-> a <> b.
Proof.
  rewrite <- pystr_eqb_eq. destruct (pystr_eqb a b); split; congruence.
Qed.


Lemma netem_qdisc_major_id_outgoing (self : TrafficControl) (base_id : Z) :
  direction self = TrafficDirection.OUTGOING ->
  get_netem_qdisc_major_id self base_id = Ok (base_id + 10 + 0).
Proof.
  intros H. unfold get_netem_qdisc_major_id. rewrite H. reflexivity.
Qed.

Lemma netem_qdisc_major_id_incoming (self : TrafficControl) (base_id : Z) :
  direction self = TrafficDirection.INCOMING ->
  get_netem_qdisc_major_id self base_id = Ok (base_id + 10 + 1).
Proof.
  intros H. unfold get_netem_qdisc_major_id. rewrite H. reflexivity.
Qed.

Lemma netem_qdisc_major_id_other (self : TrafficControl) (base_id : Z) :
  direction self <> TrafficDirection.OUTGOING ->
  direction self <> TrafficDirection.INCOMING ->
  get_netem_qdisc_major_id self base_id
  = Err (UnboundLocalError "direction_offset").
Proof.
  intros Ho Hi. apply pystr_eqb_neq in Ho, Hi.
  unfold get_netem_qdisc_major_id. rewrite Ho, Hi. reflexivity.
Qed.



Lemma get_tc_device_other_str (self : TrafficControl) (d : string) :
  direction self = Some d ->
  direction self <> TrafficDirection.OUTGOING ->
  direction self <> TrafficDirection.INCOMING ->
  get_tc_device self = Err (ValueError (Msg ("unknown direction: " ++ d))).
Proof.
  intros Hd Ho Hi. apply pystr_eqb_neq in Ho, Hi.
  unfold get_tc_device. rewrite Ho, Hi, Hd. reflexivity.
Qed.

(** C1. The netem qdisc major id of a device and a direction is the
    device's base id plus 10, plus 0 for OUTGOING and 1 for INCOMING: on
    one device the INCOMING id is the OUTGOING id plus one.  The id only
    depends on the device name and the direction: any two objects that
    agree on both get the same id, whatever their other fields. *)
Theorem netem_qdisc_major_id_incoming_is_outgoing_plus_one :
  forall out inc : TrafficControl,
    direction out = TrafficDirection.OUTGOING ->
    direction inc = TrafficDirection.INCOMING ->
    device out = device inc ->
    (exists base id,
        __get_device_qdisc_major_id out = Ok base
        /\ __get_device_qdisc_major_id inc = Ok base
        /\ rbind (__get_device_qdisc_major_id out)
                 (get_netem_qdisc_major_id out) = Ok id
        /\ rbind (__get_device_qdisc_major_id inc)
                 (get_netem_qdisc_major_id inc) = Ok (id + 1)
        /\ id = base + NETEM_QDISC_MAJOR_ID_OFFSET + 0
        /\ id + 1 = base + NETEM_QDISC_MAJOR_ID_OFFSET + 1
        /\ NETEM_QDISC_MAJOR_ID_OFFSET = 10)
    /\ (forall base_id,
           get_netem_qdisc_major_id out base_id = Ok (base_id + 10)
           /\ get_netem_qdisc_major_id inc base_id = Ok (base_id + 10 + 1))
    /\ (forall a b : TrafficControl,
           device a = device b -> direction a = direction b ->
           rbind (__get_device_qdisc_major_id a) (get_netem_qdisc_major_id a)
           = rbind (__get_device_qdisc_major_id b) (get_netem_qdisc_major_id b)).
Proof.
  intros out inc Hout Hinc Hdev. split; [|split].
  - destruct (device_qdisc_major_id_range out) as [base [Hb _]].
    exists base, (base + 10 + 0).
    rewrite <- (device_qdisc_major_id_same_device out inc Hdev), Hb.
    cbn [rbind].
    rewrite (netem_qdisc_major_id_outgoing out base Hout).
    rewrite (netem_qdisc_major_id_incoming inc base Hinc).
    unfold NETEM_QDISC_MAJOR_ID_OFFSET.
    repeat split; f_equal; lia.
  - intros base_id.
    rewrite (netem_qdisc_major_id_outgoing out base_id Hout).
    rewrite (netem_qdisc_major_id_incoming inc base_id Hinc).
    split; f_equal; lia.
  - intros a b Hd Hdir.
    rewrite (device_qdisc_major_id_same_device a b Hd).
    destruct (__get_device_qdisc_major_id b) as [base|e]; [|reflexivity].
    cbn [rbind]. unfold get_netem_qdisc_major_id. now rewrite Hdir.
Qed.

(** C1 on "eth0": ids 6692 and 6693. *)
Lemma netem_qdisc_major_id_eth0 :
  rbind (__get_device_qdisc_major_id (eth0 TrafficDirection.OUTGOING))
        (get_netem_qdisc_major_id (eth0 TrafficDirection.OUTGOING)) = Ok 6692
  /\ rbind (__get_device_qdisc_major_id (eth0 TrafficDirection.INCOMING))
           (get_netem_qdisc_major_id (eth0 TrafficDirection.INCOMING)) = Ok 6693
  /\ forall base_id,
       get_netem_qdisc_major_id (eth0 TrafficDirection.OUTGOING) base_id
       = Ok (base_id + 10)
       /\ get_netem_qdisc_major_id (eth0 TrafficDirection.INCOMING) base_id
          = Ok (base_id + 10 + 1).
Proof.
  split; [vm_compute; reflexivity|].
  split; [vm_compute; reflexivity|].
  exact (proj1 (proj2 (netem_qdisc_major_id_incoming_is_outgoing_plus_one
                         (eth0 TrafficDirection.OUTGOING)
                         (eth0 TrafficDirection.INCOMING)
                         eq_refl eq_refl eq_refl))).
Defined.

(** C10. With a direction that is neither OUTGOING nor INCOMING -- [None]
    or any other string -- [get_netem_qdisc_major_id] raises
    UnboundLocalError for its local [direction_offset], whatever the base
    id: neither branch binds it and there is no else branch.  This is not
    the "unknown direction" ValueError that [get_tc_device] raises for
    such a string. *)
Theorem netem_qdisc_major_id_unbound_direction_offset :
  forall (self : TrafficControl) (base_id : Z),
    direction self <> TrafficDirection.OUTGOING ->
    direction self <> TrafficDirection.INCOMING ->
    get_netem_qdisc_major_id self base_id
    = Err (UnboundLocalError "direction_offset")
    /\ (forall d, direction self = Some d ->
          get_tc_device self
          = Err (ValueError (Msg ("unknown direction: " ++ d)))).
Proof.
  intros self base_id Ho Hi. split.
  - now apply netem_qdisc_major_id_other.
  - intros d Hd. now apply get_tc_device_other_str.
Qed.

(** C10 with the constructor's default direction [None] and with the
    direction "sideways". *)
Lemma netem_qdisc_major_id_unbound_examples :
  get_netem_qdisc_major_id (eth0 None) 6682
  = Err (UnboundLocalError "direction_offset")
  /\ get_netem_qdisc_major_id (eth0 (Some "sideways")) 6682
     = Err (UnboundLocalError "direction_offset")
  /\ get_tc_device (eth0 (Some "sideways"))
     = Err (ValueError (Msg "unknown direction: sideways")).
Proof.
  split; [|split].
  - apply (netem_qdisc_major_id_unbound_direction_offset (eth0 None) 6682);
      discriminate.
  - apply (netem_qdisc_major_id_unbound_direction_offset
             (eth0 (Some "sideways")) 6682); discriminate.
  - apply (proj2 (netem_qdisc_major_id_unbound_direction_offset
                    (eth0 (Some "sideways")) 6682
                    ltac:(discriminate) ltac:(discriminate))
             "sideways" eq_refl).
Defined.

(** C9, where the code departs from it.  [get_tc_device] returns the
    physical device for OUTGOING, the redirect device "ifb<major id>" for
    INCOMING and raises the "unknown direction" ValueError for any other
    string; with the direction left at the constructor's default [None]
    the message cannot be built and a TypeError is raised instead. *)
Theorem get_tc_device_default_direction_type_error :
  get_tc_device (eth0 TrafficDirection.OUTGOING) = Ok "eth0"
  /\ get_tc_device (eth0 TrafficDirection.INCOMING) = Ok "ifb6682"
  /\ get_tc_device (eth0 (Some "sideways"))
     = Err (ValueError (Msg "unknown direction: sideways"))
  /\ get_tc_device (eth0 None)
     = Err (TypeError (Msg "cannot concatenate 'str' and 'NoneType' objects"))
  /\ (forall m, get_tc_device (eth0 None) <> Err (ValueError m)).
Proof.
  repeat split; try reflexivity.
  intros m. vm_compute. discriminate.
Qed.

(** ** Bounds *)

Lemma Qgtb_true (x y : Q) : Qgtb x y = true <-> (y < x)%Q.
Proof.
  unfold Qgtb. rewrite negb_true_iff.
  split.
  - intros H. apply Qnot_le_lt. intros Hle.
    apply Qle_bool_iff in Hle. congruence.
  - intros H. destruct (Qle_bool x y) eqn:E; [|reflexivity].
    apply Qle_bool_iff in E. exfalso. exact (Qlt_not_le _ _ H E).
Qed.

Lemma Qgtb_false (x y : Q) : Qgtb x y = false <-> (x <= y)%Q.
Proof.
  unfold Qgtb. rewrite negb_false_iff. apply Qle_bool_iff.
Qed.

Lemma Qltb_true (x y : Q) : Qltb x y = true <-> (x < y)%Q.
Proof. unfold Qltb. apply (Qgtb_true y x). Qed.

Lemma Qltb_false (x y : Q) : Qltb x y = false <-> (y <= x)%Q.
Proof. unfold Qltb. apply (Qgtb_false y x). Qed.

Lemma within_min_max_accepts (name : string) (v lo hi : Q) :
  (lo <= v <= hi)%Q -> _validate_within_min_max name (Some v) lo hi = Ok tt.
Proof.
  intros [Hlo Hhi]. unfold _validate_within_min_max.
  apply Qgtb_false in Hhi. apply Qltb_false in Hlo.
  now rewrite Hhi, Hlo.
Qed.

Lemma within_min_max_too_high (name : string) (v lo hi : Q) :
  (hi < v)%Q ->
  _validate_within_min_max name (Some v) lo hi
  = Err (ValueError (TooHigh name hi v)).
Proof.
  intros H. unfold _validate_within_min_max.
  apply Qgtb_true in H. now rewrite H.
Qed.

Lemma within_min_max_too_low (name : string) (v lo hi : Q) :
  (lo <= hi)%Q -> (v < lo)%Q ->
  _validate_within_min_max name (Some v) lo hi
  = Err (ValueError (TooLow name lo v)).
Proof.
  intros Hb H. unfold _validate_within_min_max.
  assert (Hhi : (v <= hi)%Q).
  { apply Qlt_le_weak. eapply Qlt_le_trans; eassumption. }
  apply Qgtb_false in Hhi. apply Qltb_true in H.
  now rewrite Hhi, H.
Qed.

Lemma within_min_max_checked (name : string) (value : option Q) (lo hi : Q) :
  (lo <= hi)%Q ->
  bounds_checked name value lo hi (_validate_within_min_max name value lo hi).
Proof.
  intros Hb. destruct value as [v|]; [|reflexivity].
  cbn [bounds_checked]. split; [split|split].
  - apply within_min_max_accepts.
  - intros Hok.
    destruct (Qlt_le_dec hi v) as [Hhi|Hhi].
    { rewrite within_min_max_too_high in Hok by assumption. discriminate. }
    destruct (Qlt_le_dec v lo) as [Hlo|Hlo].
    { rewrite within_min_max_too_low in Hok by assumption. discriminate. }
    now split.
  - apply within_min_max_too_high.
  - now apply within_min_max_too_low.
Qed.

Lemma bounds_0_100 : (0 <= 100)%Q.
Proof. discriminate. Qed.

Lemma bounds_0_10000 : (0 <= 10000)%Q.
Proof. discriminate. Qed.


Lemma network_delay_latency_first (self : TrafficControl) (v : Q) :
  latency_ms self = Some v ->
  ((10000 < v)%Q ->
   __validate_network_delay self
   = Err (ValueError (TooHigh "latency_ms" 10000 v)))
  /\ ((v < 0)%Q ->
      __validate_network_delay self
      = Err (ValueError (TooLow "latency_ms" 0 v))).
Proof.
  intros Hv. unfold __validate_network_delay. rewrite Hv. split; intros H.
  - unfold MIN_LATENCY_MS, MAX_LATENCY_MS.
    now rewrite within_min_max_too_high.
  - unfold MIN_LATENCY_MS, MAX_LATENCY_MS.
    now rewrite within_min_max_too_low by (exact bounds_0_10000 || exact H).
Qed.

Lemma network_delay_then_distro (self : TrafficControl) :
  within (latency_ms self) 0 10000 ->
  __validate_network_delay self
  = _validate_within_min_max "latency_distro_ms" (latency_distro_ms self)
      0 10000.
Proof.
  intros H. unfold __validate_network_delay.
  destruct (latency_ms self) as [v|]; [|reflexivity].
  unfold MIN_LATENCY_MS, MAX_LATENCY_MS.
  now rewrite within_min_max_accepts.
Qed.

Lemma network_delay_accepts_iff (self : TrafficControl) :
  __validate_network_delay self = Ok tt
  <-> within (latency_ms self) 0 10000
      /\ within (latency_distro_ms self) 0 10000.
Proof.
  split.
  - intros Hok.
    assert (Hl : within (latency_ms self) 0 10000).
    { destruct (latency_ms self) as [v|] eqn:Hv; [|exact I].
      cbn [within].
      destruct (network_delay_latency_first self v Hv) as [Hhi Hlo].
      destruct (Qlt_le_dec 10000 v) as [H|H].
      { rewrite (Hhi H) in Hok. discriminate. }
      destruct (Qlt_le_dec v 0) as [H'|H'].
      { rewrite (Hlo H') in Hok. discriminate. }
      now split. }
    split; [exact Hl|].
    rewrite (network_delay_then_distro self Hl) in Hok.
    destruct (latency_distro_ms self) as [j|]; [|exact I].
    apply (within_min_max_checked "latency_distro_ms" (Some j) 0 10000
             bounds_0_10000). exact Hok.
  - intros [Hl Hd]. rewrite (network_delay_then_distro self Hl).
    destruct (latency_distro_ms self) as [j|]; [|reflexivity].
    now apply within_min_max_accepts.
Qed.



(** ** The check for an effective parameter *)

Lemma absent_or_zero_no_effect (value : option Q) :
  absent_or_zero value ->
  negb (FloatType_is_type value) || eq_zero value = true.
Proof.
  destruct value as [v|]; [|reflexivity].
  cbn [absent_or_zero FloatType_is_type eq_zero negb orb].
  intros H. now apply Qeq_bool_iff.
Qed.

Lemma absent_or_zero_within (name : string) (value : option Q) (hi : Q) :
  (0 <= hi)%Q -> absent_or_zero value ->
  _validate_within_min_max name value 0 hi = Ok tt.
Proof.
  intros Hhi H. destruct value as [v|]; [|reflexivity].
  cbn [absent_or_zero] in H. apply within_min_max_accepts.
  rewrite H. split; [apply Qle_refl | exact Hhi].
Qed.

Lemma validate_bandwidth_rate_empty (self : TrafficControl) :
  bandwidth_rate self = None ->
  validate_bandwidth_rate self
  = Err (EmptyParameterError (Msg "bandwidth_rate is empty")).
Proof. intros H. unfold validate_bandwidth_rate. now rewrite H. Qed.


(** With the bandwidth rate absent, what is left of
    [__validate_netem_parameter]. *)
Lemma validate_netem_parameter_without_rate (self : TrafficControl) :
  bandwidth_rate self = None ->
  __validate_netem_parameter self
  = rbind (__validate_network_delay self) (fun _ =>
    rbind (__validate_packet_loss_rate self) (fun _ =>
    rbind (__validate_corruption_rate self) (fun _ =>
    if (negb (FloatType_is_type (latency_ms self))
        || eq_zero (latency_ms self))
       && (negb (FloatType_is_type (packet_loss_rate self))
           || eq_zero (packet_loss_rate self))
       && (negb (FloatType_is_type (corruption_rate self))
           || eq_zero (corruption_rate self))
    then Err NoEffectiveParameter else Ok tt))).
Proof.
  intros H. unfold __validate_netem_parameter.
  rewrite (validate_bandwidth_rate_empty self H), H.
  cbn [rtry is_EmptyParameterError rbind forallb FloatType_is_type negb orb
         andb].
  destruct (__validate_network_delay self); [|reflexivity].
  destruct (__validate_packet_loss_rate self); [|reflexivity].
  destruct (__validate_corruption_rate self); [|reflexivity].
  cbn [rbind]. rewrite !andb_true_r, !andb_assoc. reflexivity.
Qed.

(** C4 as amended.  When all four rate-affecting fields are absent or
    zero the parameters are always refused.  The refusal is the "no valid
    net emulation parameter" error when the bandwidth rate is absent and
    the latency distribution is absent or within its bounds; a bandwidth
    rate that is present and zero is refused earlier, with "rate must be
    greater than zero". *)
Theorem no_effective_parameter_is_refused :
  forall self : TrafficControl,
    no_effective_parameter self ->
    raises (__validate_netem_parameter self) = true
    /\ (bandwidth_rate self = None ->
        within (latency_distro_ms self) 0 10000 ->
        __validate_netem_parameter self = Err NoEffectiveParameter)
    /\ (forall rate, bandwidth_rate self = Some rate ->
          __validate_netem_parameter self
          = Err (InvalidParameterError (RateNotPositive rate))).
Proof.
  intros self (Hb & Hl & Hp & Hc).
  assert (Hrate : forall rate, bandwidth_rate self = Some rate ->
            __validate_netem_parameter self
            = Err (InvalidParameterError (RateNotPositive rate))).
  { intros rate Hr. unfold __validate_netem_parameter, validate_bandwidth_rate.
    rewrite Hr in *. cbn [absent_or_zero] in Hb.
    cbn [FloatType_is_type negb].
    assert (Hle : Qle_bool rate 0 = true).
    { apply Qle_bool_iff. rewrite Hb. apply Qle_refl. }
    rewrite Hle. reflexivity. }
  assert (Hnone : bandwidth_rate self = None ->
            __validate_netem_parameter self
            = rbind (__validate_network_delay self)
                (fun _ => Err NoEffectiveParameter)).
  { intros Hr. rewrite (validate_netem_parameter_without_rate self Hr).
    unfold __validate_packet_loss_rate, __validate_corruption_rate.
    unfold MIN_PACKET_LOSS_RATE, MIN_CORRUPTION_RATE.
    rewrite (absent_or_zero_within _ _ _ bounds_0_100 Hp).
    rewrite (absent_or_zero_within _ _ _ bounds_0_100 Hc).
    cbn [rbind].
    rewrite (absent_or_zero_no_effect _ Hl), (absent_or_zero_no_effect _ Hp),
      (absent_or_zero_no_effect _ Hc).
    reflexivity. }
  split; [|split].
  - destruct (bandwidth_rate self) as [rate|] eqn:Hr.
    + now rewrite (Hrate rate eq_refl).
    + rewrite (Hnone eq_refl).
      now destruct (__validate_network_delay self).
  - intros Hr Hd. rewrite (Hnone Hr).
    assert (Hok : __validate_network_delay self = Ok tt).
    { apply network_delay_accepts_iff. split; [|exact Hd].
      destruct (latency_ms self) as [v|]; [|exact I].
      cbn [absent_or_zero within] in *. rewrite Hl.
      split; [apply Qle_refl | discriminate]. }
    now rewrite Hok.
  - exact Hrate.
Qed.

(** C4 as amended, on a parameterless object and on one whose bandwidth
    rate is zero. *)
Lemma no_effective_parameter_examples :
  __validate_netem_parameter (eth0_netem None None None None None None)
  = Err NoEffectiveParameter
  /\ __validate_netem_parameter
       (eth0_netem None (Some 0%Q) None (Some 0%Q) (Some 0%Q) None)
     = Err NoEffectiveParameter
  /\ raises (__validate_netem_parameter
               (eth0_netem (Some 0%Q) None None None None None)) = true.
Proof.
  split; [|split].
  - apply (proj1 (proj2 (no_effective_parameter_is_refused
             (eth0_netem None None None None None None)
             (conj I (conj I (conj I I))))));
      [reflexivity | exact I].
  - apply (proj1 (proj2 (no_effective_parameter_is_refused
             (eth0_netem None (Some 0%Q) None (Some 0%Q) (Some 0%Q) None)
             (conj I (conj (Qeq_refl 0) (conj (Qeq_refl 0) (Qeq_refl 0)))))));
      [reflexivity | exact I].
  - apply (proj1 (no_effective_parameter_is_refused
             (eth0_netem (Some 0%Q) None None None None None)
             (conj (Qeq_refl 0) (conj I (conj I I))))).
Defined.

(** C4 as first stated fails: with a bandwidth rate of zero and nothing
    else, all four fields are absent or zero, and the error is not the
    "no valid net emulation parameter" one.  Likewise with the four
    fields absent and a latency distribution of 20000 ms, which is
    refused for its range first. *)
Lemma zero_bandwidth_rate_is_another_error :
  no_effective_parameter (eth0_netem (Some 0%Q) None None None None None)
  /\ __validate_netem_parameter
       (eth0_netem (Some 0%Q) None None None None None)
     = Err (InvalidParameterError (RateNotPositive 0))
  /\ __validate_netem_parameter
       (eth0_netem (Some 0%Q) None None None None None)
     <> Err NoEffectiveParameter
  /\ no_effective_parameter
       (eth0_netem None None (Some 20000%Q) None None None)
  /\ __validate_netem_parameter
       (eth0_netem None None (Some 20000%Q) None None None)
     = Err (ValueError (TooHigh "latency_distro_ms" 10000 20000)).
Proof.
  split; [|split; [|split; [|split]]].
  - repeat split; reflexivity.
  - reflexivity.
  - discriminate.
  - repeat split.
  - reflexivity.
Qed.

(** ** An absent bandwidth rate *)



(** Unfolds the monadic layer down to the answers of the host. *)
Ltac unfold_methods :=
  cbv beta iota zeta
    delta [bind ret lift try_except for_each do_SubprocessRunner_run
             do_run_command_helper do_verify_network_interface
             do_IptablesMangleController_clear do_set_shaping log];
  cbn [world calls fst snd join append forallb negb andb
         is_NetworkInterfaceNotFoundError];
  try change (2 =? 0) with false;
  try change (0 =? 0) with true.

Ltac run_host :=
  unfold_methods;
  repeat
    (match goal with
     | |- context [host_has_interface ?h ?d ?w] =>
         destruct (host_has_interface h d w)
     | |- context [host_run_helper ?h ?c ?r ?t ?w] =>
         let code := fresh "code" in
         let w' := fresh "w" in
         destruct (host_run_helper h c r t w) as [code w']
     | |- context [host_run ?h ?c ?w] =>
         let code := fresh "code" in
         let w' := fresh "w" in
         destruct (host_run h c w) as [code w']
     | |- context [negb (?c =? 0)] => destruct (c =? 0)
     | |- context [host_iptables_clear ?h ?w] =>
         let cleared := fresh "cleared" in
         let w' := fresh "w" in
         destruct (host_iptables_clear h w) as [cleared w']
     end;
     unfold_methods).





(** ** [set_tc]: the redirect device comes before the shaper *)

Lemma string_append_assoc (a b c : string) :
  ((a ++ b) ++ c = a ++ (b ++ c))%string.
Proof.
  induction a as [|x a IH]; [reflexivity|].
  cbn [append]. now rewrite IH.
Qed.

Lemma ifb_device_is_not_empty (self : TrafficControl) :
  is_empty_string (ifb_device self) = false.
Proof. reflexivity. Qed.

Lemma setup_ifb_not_incoming {W : Type} (host : Host W)
    (self : TrafficControl) (m : machine W) :
  direction self <> TrafficDirection.INCOMING ->
  __setup_ifb host self m = (Ok 0, m).
Proof.
  intros H. apply pystr_eqb_neq in H.
  unfold __setup_ifb. rewrite H. reflexivity.
Qed.

Lemma setup_ifb_incoming {W : Type} (host : Host W)
    (self : TrafficControl) (m : machine W) :
  direction self = TrafficDirection.INCOMING ->
  exists id return_code w,
    __get_device_qdisc_major_id self = Ok id
    /\ __setup_ifb host self m
       = (Ok return_code,
          mkMachine w
            (calls m ++
             [ SubprocessRunner_run "modprobe ifb";
               run_command_helper
                 ("ip link add " ++ ifb_device self ++ " type ifb")
                 "RTNETLINK answers: File exists"
                 (EXISTS_MSG_TEMPLATE
                    "failed to add ip link: ip link already exists.");
               SubprocessRunner_run
                 ("ip link set dev " ++ ifb_device self ++ " up");
               run_command_helper
                 ("tc qdisc add dev " ++ device self ++ " ingress")
                 "RTNETLINK answers: File exists"
                 (EXISTS_MSG_TEMPLATE
                    "failed to add qdisc: ingress qdisc already exists.");
               SubprocessRunner_run
                 ("tc filter add dev " ++ device self
                  ++ " parent ffff: protocol ip u32 match u32 0 0 flowid "
                  ++ format_x id
                  ++ ": action mirred egress redirect dev "
                  ++ ifb_device self) ])%list).
Proof.
  intros H.
  destruct (device_qdisc_major_id_range self) as [id [Hid _]].
  exists id.
  unfold __setup_ifb. rewrite H, Hid.
  cbn [pystr_eqb TrafficDirection.INCOMING negb].
  rewrite String.eqb_refl, ifb_device_is_not_empty. cbn [negb].
  run_host.
  do 2 eexists. split; [reflexivity|].
  f_equal. f_equal.
  rewrite <- !app_assoc. cbn [app]. do 5 f_equal.
  cbn [join append]. rewrite !string_append_assoc. reflexivity.
Qed.



(** ** [delete_tc] *)

(** A teardown in terms of the answers of the host. *)
Lemma delete_tc_steps {W : Type} (host : Host W) (self : TrafficControl)
    (m : machine W) :
  delete_tc host self m
  = (Ok (root_removed (fst (teardown_steps host self (world m)))
         || ingress_removed (fst (teardown_steps host self (world m)))
         || ifb_removed (fst (teardown_steps host self (world m)))),
     mkMachine (snd (teardown_steps host self (world m)))
       (calls m
        ++ teardown_calls self
             (ifb_found (fst (teardown_steps host self (world m)))))%list).
Proof.
  unfold delete_tc, __delete_ifb_device, teardown_steps, teardown_calls.
  run_host;
  cbn [root_removed ingress_removed ifb_removed ifb_found];
  rewrite <- !app_assoc; cbn [app];
  repeat
    match goal with
    | |- context [?c =? 0] => destruct (c =? 0)
    end;
  reflexivity.
Qed.

(** C6. A teardown never raises, whatever the host answers: it returns a
    boolean.  Its steps are all attempted, in order, whatever the earlier
    ones answered: root qdisc, ingress qdisc, lookup of the redirect
    device and, when it is found, the three commands on it, then the
    mangle table.  A redirect device that is not found is not an error:
    the teardown goes on and the step counts as having removed nothing.
    On a host where nothing is configured (both removals fail, no redirect
    device) the result is [false], without an exception; and a teardown
    that follows a teardown returns as well. *)
Theorem delete_tc_never_raises :
  forall (W : Type) (host : Host W) (self : TrafficControl) (m : machine W),
    let o := fst (teardown_steps host self (world m)) in
    exists (removed : bool) (m' : machine W),
      delete_tc host self m = (Ok removed, m')
      /\ calls m' = (calls m ++ teardown_calls self (ifb_found o))%list
      /\ (ifb_found o = false ->
          removed = root_removed o || ingress_removed o
          /\ calls m' = (calls m ++ teardown_calls self false)%list)
      /\ (root_removed o = false -> ingress_removed o = false ->
          ifb_found o = false -> removed = false)
      /\ (exists (removed' : bool) (m'' : machine W),
             delete_tc host self m' = (Ok removed', m'')).
Proof.
  intros W host self m o.
  eexists. eexists. split; [apply delete_tc_steps|].
  fold o. cbn [calls].
  split; [reflexivity|].
  split; [|split].
  - intros Hf. split; [|now rewrite Hf].
    assert (Hr : ifb_removed o = false).
    { subst o. revert Hf. unfold teardown_steps. run_host;
        cbn [ifb_found ifb_removed]; congruence. }
    rewrite Hr. now rewrite orb_false_r.
  - intros H1 H2 Hf.
    assert (Hr : ifb_removed o = false).
    { subst o. revert Hf. unfold teardown_steps. run_host;
        cbn [ifb_found ifb_removed]; congruence. }
    now rewrite H1, H2, Hr.
  - eexists. eexists. apply delete_tc_steps.
Qed.

(** C6 on a host with "eth0" and nothing configured, twice in a row; and
    on a host with a root qdisc on "eth0". *)
Lemma delete_tc_on_eth0 :
  fst (delete_tc Scripted.host (eth0 None)
         (Scripted.boot (Scripted.mkWorld ["eth0"] [] 0))) = Ok false
  /\ fst (delete_tc Scripted.host (eth0 None)
            (snd (delete_tc Scripted.host (eth0 None)
                    (Scripted.boot (Scripted.mkWorld ["eth0"] [] 0)))))
     = Ok false
  /\ fst (delete_tc Scripted.host (eth0 None)
            (Scripted.boot
               (Scripted.mkWorld ["eth0"] ["tc qdisc del dev eth0 root"] 0)))
     = Ok true
  /\ fst (delete_tc Scripted.host (eth0 None)
            (snd (delete_tc Scripted.host (eth0 None)
                    (Scripted.boot
                       (Scripted.mkWorld ["eth0"]
                          ["tc qdisc del dev eth0 root"] 0)))))
     = Ok false.
Proof.
  split.
  - destruct (delete_tc_never_raises _ Scripted.host (eth0 None)
                (Scripted.boot (Scripted.mkWorld ["eth0"] [] 0)))
      as (removed & m' & Hrun & _ & _ & Hclean & _).
    rewrite Hrun. cbn [fst]. f_equal.
    apply Hclean; reflexivity.
  - repeat split; reflexivity.
Defined.

(** C2 as amended.  The result of a teardown is the disjunction of three
    outcomes: the root qdisc was removed, the ingress qdisc was removed,
    the redirect device was found and one of its commands succeeded.  It
    is [false] exactly when all three failed.  The mangle table is
    cleared in every case, after the three, and what the clearing
    answers has no part in the result. *)
Theorem delete_tc_is_the_or_of_three_steps :
  forall (W : Type) (host : Host W) (self : TrafficControl) (m : machine W),
    let o := fst (teardown_steps host self (world m)) in
    fst (delete_tc host self m)
    = Ok (root_removed o || ingress_removed o || ifb_removed o)
    /\ (fst (delete_tc host self m) = Ok false
        <-> root_removed o = false /\ ingress_removed o = false
            /\ ifb_removed o = false)
    /\ world (snd (delete_tc host self m))
       = snd (teardown_steps host self (world m))
    /\ last (calls (snd (delete_tc host self m))) IptablesMangleController_clear
       = IptablesMangleController_clear
    /\ In IptablesMangleController_clear (calls (snd (delete_tc host self m))).
Proof.
  intros W host self m o. rewrite delete_tc_steps. fold o. cbn [fst snd world calls].
  split; [reflexivity|]. split; [|split; [reflexivity|]].
  - split.
    + intros H.
      destruct (root_removed o), (ingress_removed o), (ifb_removed o);
        cbn in H; try discriminate; now repeat split.
    + intros (H1 & H2 & H3). now rewrite H1, H2, H3.
  - unfold teardown_calls. rewrite !app_assoc. split.
    + apply last_last.
    + apply in_or_app. right. now left.
Qed.

(** C2 as amended, with a root qdisc on "eth0" and one rule in the
    mangle table, and with the rule only. *)
Lemma delete_tc_or_of_three_on_eth0 :
  fst (delete_tc Scripted.host (eth0 None)
         (Scripted.boot
            (Scripted.mkWorld ["eth0"] ["tc qdisc del dev eth0 root"] 1)))
  = Ok true
  /\ In IptablesMangleController_clear
       (calls (snd (delete_tc Scripted.host (eth0 None)
                      (Scripted.boot (Scripted.mkWorld ["eth0"] [] 1))))).
Proof.
  split.
  - rewrite (proj1 (delete_tc_is_the_or_of_three_steps _ Scripted.host
                      (eth0 None)
                      (Scripted.boot
                         (Scripted.mkWorld ["eth0"]
                            ["tc qdisc del dev eth0 root"] 1)))).
    reflexivity.
  - apply (delete_tc_is_the_or_of_three_steps _ Scripted.host (eth0 None)
             (Scripted.boot (Scripted.mkWorld ["eth0"] [] 1))).
Defined.

(** C2 as first stated fails: on a host with "eth0", no qdisc, no redirect
    device and one rule in the mangle table, the clearing removes the
    rule, and the teardown returns [false]. *)
Lemma delete_tc_ignores_the_mangle_table :
  firewall_cleared
    (fst (teardown_steps Scripted.host (eth0 None)
            (Scripted.mkWorld ["eth0"] [] 1))) = true
  /\ Scripted.mangle_rules
       (world (snd (delete_tc Scripted.host (eth0 None)
                      (Scripted.boot (Scripted.mkWorld ["eth0"] [] 1))))) = 0%nat
  /\ fst (delete_tc Scripted.host (eth0 None)
            (Scripted.boot (Scripted.mkWorld ["eth0"] [] 1))) = Ok false.
Proof. repeat split; reflexivity. Qed.

(** ** [__init__] *)

(** Construction always succeeds, and stores the major id derived from
    the device name. *)
Lemma init_stores_device_qdisc_major_id {W : Type} (host : Host W)
    (device0 : string) (direction0 bandwidth_rate0 : pystr)
    (latency_ms0 latency_distro_ms0 packet_loss_rate0 corruption_rate0
       : option Q)
    (network0 : pystr) (port0 : option Z) (src_network0 : pystr)
    (is_enable_iptables0 : bool) (m : machine W) :
  exists self m',
    __init__ host device0 direction0 bandwidth_rate0 latency_ms0
      latency_distro_ms0 packet_loss_rate0 corruption_rate0 network0 port0
      src_network0 is_enable_iptables0 m = (Ok self, m')
    /\ device self = device0
    /\ direction self = direction0
    /\ __get_device_qdisc_major_id self = Ok (qdisc_major_id self)
    /\ 4096 <= qdisc_major_id self <= 8191.
Proof.
  unfold __init__.
  match goal with
  | |- context [__get_device_qdisc_major_id ?s] =>
      destruct (device_qdisc_major_id_range s) as [id [Hid Hr]]; rewrite Hid
  end.
  unfold_methods.
  eexists. eexists. split; [reflexivity|].
  cbn [device direction qdisc_major_id].
  repeat split; try lia.
  rewrite <- Hid. now apply device_qdisc_major_id_same_device.
Qed.


(* ------------------------------------------------------------------ *)
(** * Further properties of the methods *)

(** ** Acceptance by [validate_bandwidth_rate] and
    [__validate_netem_parameter] *)

Lemma Qle_bool_false (x y : Q) : Qle_bool x y = false <-> (y < x)%Q.
Proof.
  rewrite <- (Qgtb_true x y). unfold Qgtb.
  destruct (Qle_bool x y); split; intros H; try reflexivity; discriminate.
Qed.

(** X1. [validate_bandwidth_rate] accepts a bandwidth rate exactly when it
    is present and greater than zero; a rate that is zero or negative is
    refused with InvalidParameterError carrying the rate, an absent one
    with EmptyParameterError. *)
Theorem validate_bandwidth_rate_accepts_positive_rates :
  forall self : TrafficControl,
    (validate_bandwidth_rate self = Ok tt
     <-> exists rate, bandwidth_rate self = Some rate /\ (0 < rate)%Q)
    /\ (forall rate, bandwidth_rate self = Some rate -> (rate <= 0)%Q ->
          validate_bandwidth_rate self
          = Err (InvalidParameterError (RateNotPositive rate)))
    /\ (bandwidth_rate self = None ->
        validate_bandwidth_rate self
        = Err (EmptyParameterError (Msg "bandwidth_rate is empty"))).
Proof.
  intros self. unfold validate_bandwidth_rate.
  destruct (bandwidth_rate self) as [rate|];
    cbn [FloatType_is_type negb].
  - split; [|split].
    + destruct (Qle_bool rate 0) eqn:E.
      * split; [discriminate|]. intros (r & Hr & Hpos).
        injection Hr as <-. apply Qle_bool_iff in E.
        exfalso. exact (Qlt_not_le _ _ Hpos E).
      * split; [|reflexivity]. intros _. exists rate.
        split; [reflexivity | now apply Qle_bool_false].
    + intros r Hr Hle. injection Hr as <-.
      apply Qle_bool_iff in Hle. now rewrite Hle.
    + discriminate.
  - split; [|split].
    + split; [discriminate|]. intros (r & Hr & _). discriminate.
    + discriminate.
    + reflexivity.
Qed.

(** X1 on rates of 1000, 0 and -5. *)
Lemma validate_bandwidth_rate_examples :
  validate_bandwidth_rate (eth0_netem (Some 1000%Q) None None None None None)
  = Ok tt
  /\ validate_bandwidth_rate (eth0_netem (Some 0%Q) None None None None None)
     = Err (InvalidParameterError (RateNotPositive 0))
  /\ validate_bandwidth_rate
       (eth0_netem (Some (-5)%Q) None None None None None)
     = Err (InvalidParameterError (RateNotPositive (-5))).
Proof.
  split; [|split].
  - apply (proj1 (validate_bandwidth_rate_accepts_positive_rates
                    (eth0_netem (Some 1000%Q) None None None None None))).
    exists 1000%Q. split; reflexivity.
  - apply (proj1 (proj2 (validate_bandwidth_rate_accepts_positive_rates
                           (eth0_netem (Some 0%Q) None None None None None))));
      [reflexivity | discriminate].
  - apply (proj1 (proj2 (validate_bandwidth_rate_accepts_positive_rates
                           (eth0_netem (Some (-5)%Q) None None None None
                              None))));
      [reflexivity | discriminate].
Defined.




(** With a bandwidth rate that is absent or positive, the checks that
    follow, in their order. *)
Lemma validate_netem_parameter_after_rate (self : TrafficControl) :
  positive_or_absent (bandwidth_rate self) ->
  __validate_netem_parameter self
  = rbind (__validate_network_delay self) (fun _ =>
    rbind (__validate_packet_loss_rate self) (fun _ =>
    rbind (__validate_corruption_rate self) (fun _ =>
    if forallb (fun value => negb (FloatType_is_type value) || eq_zero value)
         [ bandwidth_rate self; latency_ms self;
           packet_loss_rate self; corruption_rate self ]
    then Err NoEffectiveParameter else Ok tt))).
Proof.
  intros H. unfold __validate_netem_parameter, validate_bandwidth_rate.
  destruct (bandwidth_rate self) as [rate|];
    cbn [FloatType_is_type negb positive_or_absent] in *.
  - apply Qle_bool_false in H. rewrite H. reflexivity.
  - reflexivity.
Qed.

Lemma validate_netem_parameter_bad_rate (self : TrafficControl) (rate : Q) :
  bandwidth_rate self = Some rate -> (rate <= 0)%Q ->
  __validate_netem_parameter self
  = Err (InvalidParameterError (RateNotPositive rate)).
Proof.
  intros Hr Hle. unfold __validate_netem_parameter, validate_bandwidth_rate.
  rewrite Hr. cbn [FloatType_is_type negb].
  apply Qle_bool_iff in Hle. now rewrite Hle.
Qed.



(** X3. The checks of [__validate_netem_parameter] are made in a fixed
    order and the first that fails gives the error: a bandwidth rate that
    is zero or negative, then the latency and its distribution, then the
    packet loss rate, then the corruption rate; the "no valid net
    emulation parameter" error is given only when all of these pass. *)
Theorem validate_netem_parameter_first_error :
  forall self : TrafficControl,
    (forall rate, bandwidth_rate self = Some rate -> (rate <= 0)%Q ->
       __validate_netem_parameter self
       = Err (InvalidParameterError (RateNotPositive rate)))
    /\ (positive_or_absent (bandwidth_rate self) ->
        (forall e, __validate_network_delay self = Err e ->
           __validate_netem_parameter self = Err e)
        /\ (__validate_network_delay self = Ok tt ->
            (forall e, __validate_packet_loss_rate self = Err e ->
               __validate_netem_parameter self = Err e)
            /\ (__validate_packet_loss_rate self = Ok tt ->
                (forall e, __validate_corruption_rate self = Err e ->
                   __validate_netem_parameter self = Err e)
                /\ (__validate_corruption_rate self = Ok tt ->
                    __validate_netem_parameter self = Err NoEffectiveParameter
                    \/ __validate_netem_parameter self = Ok tt)))).
Proof.
  intros self. split; [apply validate_netem_parameter_bad_rate|].
  intros Hrate. rewrite (validate_netem_parameter_after_rate self Hrate).
  split; [intros e He; now rewrite He|].
  intros Hd. rewrite Hd. cbn [rbind].
  split; [intros e He; now rewrite He|].
  intros Hl. rewrite Hl. cbn [rbind].
  split; [intros e He; now rewrite He|].
  intros Hc. rewrite Hc. cbn [rbind].
  destruct (forallb _ _); [now left | now right].
Qed.

(** X3 on a zero rate with a latency out of range, and on a latency and a
    packet loss rate both out of range. *)
Lemma validate_netem_parameter_first_error_examples :
  __validate_netem_parameter
    (eth0_netem (Some 0%Q) (Some 20000%Q) None None None None)
  = Err (InvalidParameterError (RateNotPositive 0))
  /\ __validate_netem_parameter
       (eth0_netem None (Some 20000%Q) None (Some 150%Q) None None)
     = Err (ValueError (TooHigh "latency_ms" 10000 20000)).
Proof.
  split.
  - apply (proj1 (validate_netem_parameter_first_error
                    (eth0_netem (Some 0%Q) (Some 20000%Q) None None None
                       None)));
      [reflexivity | discriminate].
  - apply (proj1 (proj2 (validate_netem_parameter_first_error
                           (eth0_netem None (Some 20000%Q) None (Some 150%Q)
                              None None)) I)).
    reflexivity.
Defined.

(** ** [validate] *)

(** [validate] in terms of its steps. *)
Lemma validate_steps {W : Type} (host : Host W) (self : TrafficControl)
    (m : machine W) :
  validate host (self, m)
  = let m' := log (verify_network_interface (device self)) m in
    if host_has_interface host (device self) (world m) then
      match __validate_netem_parameter self with
      | Err e => (Err e, (self, m'))
      | Ok _ =>
          match host_sanitize_network host (network self) with
          | Err e => (Err e, (self, m'))
          | Ok n1 =>
              match host_sanitize_network host (src_network self) with
              | Err e => (Err e, (set_network self n1, m'))
              | Ok n2 =>
                  (__validate_port self,
                   (set_src_network (set_network self n1) n2, m'))
              end
          end
      end
    else
      (Err (NetworkInterfaceNotFoundError (Msg (device self))), (self, m')).
Proof.
  unfold validate, on_host, on_self, update_self. unfold_methods.
  destruct (host_has_interface host (device self) (world m));
    cbn [fst snd]; [|reflexivity].
  destruct (__validate_netem_parameter self) as [[]|e1];
    cbn [fst snd]; [|reflexivity].
  destruct (host_sanitize_network host (network self)) as [n1|e2];
    cbn [fst snd]; [|reflexivity].
  cbn [set_network src_network].
  destruct (host_sanitize_network host (src_network self)) as [n2|e3];
    cbn [fst snd]; reflexivity.
Qed.

(** X4. [validate] runs no command and leaves the host as it is: whatever
    its outcome, the only call it makes is the lookup of the device among
    the network interfaces. *)
Theorem validate_leaves_the_host_alone :
  forall (W : Type) (host : Host W) (self : TrafficControl) (m : machine W),
    world (snd (snd (validate host (self, m)))) = world m
    /\ calls (snd (snd (validate host (self, m))))
       = (calls m ++ [verify_network_interface (device self)])%list.
Proof.
  intros W host self m. rewrite validate_steps. cbv zeta.
  destruct (host_has_interface host (device self) (world m));
    [|split; reflexivity].
  destruct (__validate_netem_parameter self); [|split; reflexivity].
  destruct (host_sanitize_network host (network self)); [|split; reflexivity].
  destruct (host_sanitize_network host (src_network self)); split; reflexivity.
Qed.

(** X5. When the device is not among the network interfaces, [validate]
    fails with NetworkInterfaceNotFoundError for that device whatever
    the parameters are, and the object is unchanged: the lookup comes
    before every other check. *)
Theorem validate_missing_device :
  forall (W : Type) (host : Host W) (self : TrafficControl) (m : machine W),
    host_has_interface host (device self) (world m) = false ->
    fst (validate host (self, m))
    = Err (NetworkInterfaceNotFoundError (Msg (device self)))
    /\ fst (snd (validate host (self, m))) = self.
Proof.
  intros W host self m H. rewrite validate_steps. cbv zeta.
  rewrite H. split; reflexivity.
Qed.

(** X5 on a host without "eth0", for an object whose packet loss rate is
    out of range as well. *)
Lemma validate_missing_device_example :
  fst (validate Scripted.host
         (eth0_netem None None None (Some 150%Q) None None,
          Scripted.boot (Scripted.mkWorld ["lo"] [] 0)))
  = Err (NetworkInterfaceNotFoundError (Msg "eth0")).
Proof.
  apply (proj1 (validate_missing_device _ Scripted.host
                  (eth0_netem None None None (Some 150%Q) None None)
                  (Scripted.boot (Scripted.mkWorld ["lo"] [] 0))
                  eq_refl)).
Defined.

(** X6. [validate] succeeds exactly when the device is a network
    interface, the emulation parameters are accepted, both networks are
    sanitized without error and the port is accepted; the object is then
    the same but for its two networks, replaced by their sanitized forms.
    The networks are replaced one after the other and before the port is
    checked, so a validation that fails on the source network or on the
    port leaves the object with networks already replaced. *)
Theorem validate_succeeds_iff :
  forall (W : Type) (host : Host W) (self : TrafficControl) (m : machine W),
    (fst (validate host (self, m)) = Ok tt
     <-> host_has_interface host (device self) (world m) = true
         /\ __validate_netem_parameter self = Ok tt
         /\ (exists n1 n2,
                host_sanitize_network host (network self) = Ok n1
                /\ host_sanitize_network host (src_network self) = Ok n2)
         /\ __validate_port self = Ok tt)
    /\ (forall n1 n2,
          host_has_interface host (device self) (world m) = true ->
          __validate_netem_parameter self = Ok tt ->
          host_sanitize_network host (network self) = Ok n1 ->
          (host_sanitize_network host (src_network self) = Ok n2 ->
           fst (snd (validate host (self, m)))
           = set_src_network (set_network self n1) n2)
          /\ (forall e,
                host_sanitize_network host (src_network self) = Err e ->
                validate host (self, m)
                = (Err e,
                   (set_network self n1,
                    log (verify_network_interface (device self)) m)))).
Proof.
  intros W host self m. rewrite validate_steps. cbv zeta. split.
  - destruct (host_has_interface host (device self) (world m)).
    2:{ cbn [fst]. split; [discriminate|]. intros (H & _). discriminate. }
    destruct (__validate_netem_parameter self) as [[]|e1].
    2:{ cbn [fst]. split; [discriminate|]. intros (_ & H & _). discriminate. }
    destruct (host_sanitize_network host (network self)) as [n1|e2].
    2:{ cbn [fst]. split; [discriminate|].
        intros (_ & _ & (x & y & H & _) & _). discriminate. }
    destruct (host_sanitize_network host (src_network self)) as [n2|e3].
    2:{ cbn [fst]. split; [discriminate|].
        intros (_ & _ & (x & y & _ & H) & _). discriminate. }
    cbn [fst]. split.
    + intros H. repeat split; try assumption. now exists n1, n2.
    + intros (_ & _ & _ & H). exact H.
  - intros n1 n2 Hi Hn H1. rewrite Hi, Hn, H1. split.
    + intros H2. now rewrite H2.
    + intros e H2. now rewrite H2.
Qed.

(** X6 on a host with "eth0": a latency of 50 ms is valid, and a port
    out of range is refused after the networks were replaced. *)
Lemma validate_succeeds_examples :
  fst (validate Scripted.host
         (eth0_netem None (Some 50%Q) None None None None,
          Scripted.boot (Scripted.mkWorld ["eth0"] [] 0))) = Ok tt
  /\ fst (validate Scripted.host
            (eth0_netem None (Some 50%Q) None None None (Some 70000%Z),
             Scripted.boot (Scripted.mkWorld ["eth0"] [] 0)))
     = Err (ValueError (TooHigh "port" 65535 (inject_Z 70000))).
Proof.
  split.
  - apply (proj1 (validate_succeeds_iff _ Scripted.host
                    (eth0_netem None (Some 50%Q) None None None None)
                    (Scripted.boot (Scripted.mkWorld ["eth0"] [] 0)))).
    repeat split. exists None, None. split; reflexivity.
  - reflexivity.
Defined.

Lemma validate_port_set_direction (self : TrafficControl) (d : pystr) :
  __validate_port (set_direction self d) = __validate_port self.
Proof. reflexivity. Qed.

(** X7. [validate] does not look at the direction: an object validates
    or fails in the same way under any direction, be it [None] or a
    string that is no direction at all. *)
Theorem validate_ignores_the_direction :
  forall (W : Type) (host : Host W) (self : TrafficControl) (d : pystr)
         (m : machine W),
    fst (validate host (set_direction self d, m))
    = fst (validate host (self, m))
    /\ fst (snd (validate host (set_direction self d, m)))
       = set_direction (fst (snd (validate host (self, m)))) d.
Proof.
  intros W host self d m. rewrite !validate_steps. cbv zeta.
  change (device (set_direction self d)) with (device self).
  change (__validate_netem_parameter (set_direction self d))
    with (__validate_netem_parameter self).
  change (network (set_direction self d)) with (network self).
  change (src_network (set_direction self d)) with (src_network self).
  destruct (host_has_interface host (device self) (world m));
    [|split; reflexivity].
  destruct (__validate_netem_parameter self); [|split; reflexivity].
  destruct (host_sanitize_network host (network self)); [|split; reflexivity].
  destruct (host_sanitize_network host (src_network self));
    split; reflexivity.
Qed.

(** X7 with the direction "sideways": the object is valid, and has no
    target device. *)
Lemma validate_ignores_the_direction_example :
  fst (validate Scripted.host
         (set_direction (eth0_netem None (Some 50%Q) None None None None)
            (Some "sideways"),
          Scripted.boot (Scripted.mkWorld ["eth0"] [] 0))) = Ok tt
  /\ get_tc_device
       (set_direction (eth0_netem None (Some 50%Q) None None None None)
          (Some "sideways"))
     = Err (ValueError (Msg "unknown direction: sideways")).
Proof.
  split.
  - rewrite (proj1 (validate_ignores_the_direction _ Scripted.host
                      (eth0_netem None (Some 50%Q) None None None None)
                      (Some "sideways")
                      (Scripted.boot (Scripted.mkWorld ["eth0"] [] 0)))).
    reflexivity.
  - reflexivity.
Defined.

(** ** [__setup_ifb] and [set_tc] again *)

Lemma setup_ifb_codes {W : Type} (host : Host W) (self : TrafficControl)
    (m : machine W) :
  direction self = TrafficDirection.INCOMING ->
  exists id,
    __get_device_qdisc_major_id self = Ok id
    /\ fst (__setup_ifb host self m)
       = Ok (fold_left Z.lor
               (fst (setup_exit_codes host self id (world m))) 0)
    /\ world (snd (__setup_ifb host self m))
       = snd (setup_exit_codes host self id (world m))
    /\ length (fst (setup_exit_codes host self id (world m))) = 5%nat.
Proof.
  intros H.
  destruct (device_qdisc_major_id_range self) as [id [Hid _]].
  exists id. split; [exact Hid|].
  unfold __setup_ifb, setup_exit_codes. rewrite H, Hid.
  cbn [pystr_eqb TrafficDirection.INCOMING negb].
  rewrite String.eqb_refl, ifb_device_is_not_empty. cbn [negb].
  unfold REGEXP_FILE_EXISTS.
  run_host.
  repeat split.
Qed.

Lemma fold_lor_zero (codes : list Z) (acc : Z) :
  fold_left Z.lor codes acc = 0 <-> acc = 0 /\ Forall (fun c => c = 0) codes.
Proof.
  revert acc. induction codes as [|c codes IH]; intros acc; cbn [fold_left].
  - split; [intros H; split; [exact H | constructor] | intros [H _]; exact H].
  - rewrite IH, Z.lor_eq_0_iff. split.
    + intros [[Ha Hc] Hf]. split; [exact Ha | now constructor].
    + intros [Ha Hf]. inversion Hf; subst. now repeat split.
Qed.

(** X8. On direction INCOMING, [__setup_ifb] asks the host for all five
    commands whatever the earlier ones answered, and returns the bitwise
    or of their five exit codes: it returns 0 exactly when every one of
    the five commands exited with 0. *)
Theorem setup_ifb_returns_the_or_of_the_exit_codes :
  forall (W : Type) (host : Host W) (self : TrafficControl) (m : machine W),
    direction self = TrafficDirection.INCOMING ->
    exists id,
      __get_device_qdisc_major_id self = Ok id
      /\ fst (__setup_ifb host self m)
         = Ok (fold_left Z.lor
                 (fst (setup_exit_codes host self id (world m))) 0)
      /\ length (fst (setup_exit_codes host self id (world m))) = 5%nat
      /\ (fst (__setup_ifb host self m) = Ok 0
          <-> Forall (fun c => c = 0)
                (fst (setup_exit_codes host self id (world m)))).
Proof.
  intros W host self m H.
  destruct (setup_ifb_codes host self m H) as (id & Hid & Hr & _ & Hlen).
  exists id. repeat split; try assumption.
  - rewrite Hr. intros E.
    assert (E' : fold_left Z.lor
                   (fst (setup_exit_codes host self id (world m))) 0 = 0)
      by congruence.
    now apply fold_lor_zero in E'.
  - intros Hf. rewrite Hr. f_equal. apply fold_lor_zero. now split.
Qed.

(** X8 on a host where only "modprobe ifb" succeeds: the other four
    commands exit with 2, and so does the setup. *)
Lemma setup_ifb_exit_code_example :
  fst (__setup_ifb Scripted.host (eth0 TrafficDirection.INCOMING)
         (Scripted.boot (Scripted.mkWorld ["eth0"] ["modprobe ifb"] 0)))
  = Ok 2.
Proof.
  destruct (setup_ifb_returns_the_or_of_the_exit_codes _ Scripted.host
              (eth0 TrafficDirection.INCOMING)
              (Scripted.boot (Scripted.mkWorld ["eth0"] ["modprobe ifb"] 0))
              eq_refl) as (id & Hid & Hr & _).
  rewrite Hr.
  assert (E : Ok id = Ok 6682) by (rewrite <- Hid; vm_compute; reflexivity).
  assert (E' : id = 6682) by congruence.
  rewrite E'. vm_compute. reflexivity.
Defined.

Lemma setup_ifb_returns {W : Type} (host : Host W) (self : TrafficControl)
    (m : machine W) :
  exists code m', __setup_ifb host self m = (Ok code, m').
Proof.
  destruct (pystr_eqb (direction self) TrafficDirection.INCOMING) eqn:E.
  - apply pystr_eqb_eq in E.
    destruct (setup_ifb_incoming host self m E) as (id & code & w & _ & H).
    rewrite H. now do 2 eexists.
  - apply pystr_eqb_neq in E.
    rewrite (setup_ifb_not_incoming host self m E). now do 2 eexists.
Qed.

(** X9. [set_tc] drops what the setup of the redirect device returns: the
    shaper is called whatever the exit codes of the setup were, and
    [set_tc] returns or raises as the shaper does.  With a direction other
    than INCOMING -- OUTGOING, [None] or an unknown string -- the shaper
    is its only call. *)
Theorem set_tc_ends_as_the_shaper :
  forall (W : Type) (host : Host W) (self : TrafficControl) (m : machine W),
    fst (set_tc host self m)
    = fst (host_set_shaping host self
             (world (snd (__setup_ifb host self m))))
    /\ last (calls (snd (set_tc host self m))) (set_shaping self)
       = set_shaping self
    /\ (direction self <> TrafficDirection.INCOMING ->
        fst (set_tc host self m)
        = fst (host_set_shaping host self (world m))
        /\ calls (snd (set_tc host self m))
           = (calls m ++ [set_shaping self])%list).
Proof.
  intros W host self m.
  assert (Hgen : forall code m',
            __setup_ifb host self m = (Ok code, m') ->
            fst (set_tc host self m)
            = fst (host_set_shaping host self (world m'))
            /\ calls (snd (set_tc host self m))
               = (calls m' ++ [set_shaping self])%list).
  { intros code m' H. unfold set_tc, bind. rewrite H.
    unfold do_set_shaping, log. cbn [world calls].
    destruct (host_set_shaping host self (world m')) as [r w'].
    split; reflexivity. }
  destruct (setup_ifb_returns host self m) as (code & m' & H).
  destruct (Hgen code m' H) as [Hr Hc].
  split; [now rewrite H|]. split.
  - rewrite Hc. apply last_last.
  - intros Hn.
    pose proof (setup_ifb_not_incoming host self m Hn) as H0.
    apply (Hgen 0 m H0).
Qed.

(** X9 with the direction left at [None]: one call, to the shaper. *)
Lemma set_tc_without_direction :
  calls (snd (set_tc Scripted.host (eth0 None)
                (Scripted.boot (Scripted.mkWorld ["eth0"] [] 0))))
  = [set_shaping (eth0 None)].
Proof.
  apply (proj2 (proj2 (set_tc_ends_as_the_shaper _ Scripted.host (eth0 None)
                         (Scripted.boot (Scripted.mkWorld ["eth0"] [] 0))))).
  discriminate.
Defined.

(** ** [__delete_ifb_device] and [delete_tc] again *)

(** X10. [__delete_ifb_device] first looks the redirect device up: when
    it is not a network interface, it raises
    NetworkInterfaceNotFoundError without running any command.
    Otherwise it runs its three commands, all of them whatever the
    earlier ones answered, and returns 0 when at least one exited with 0
    and 2 when none did. *)
Theorem delete_ifb_device_outcomes :
  forall (W : Type) (host : Host W) (self : TrafficControl) (m : machine W),
    (host_has_interface host (ifb_device self) (world m) = false ->
     __delete_ifb_device host self m
     = (Err (NetworkInterfaceNotFoundError (Msg (ifb_device self))),
        mkMachine (world m)
          (calls m ++ [verify_network_interface (ifb_device self)])%list))
    /\ (host_has_interface host (ifb_device self) (world m) = true ->
        let codes := fst (ifb_exit_codes host self (world m)) in
        length codes = 3%nat
        /\ (Exists (fun c => c = 0) codes ->
            fst (__delete_ifb_device host self m) = Ok 0)
        /\ (Forall (fun c => c <> 0) codes ->
            fst (__delete_ifb_device host self m) = Ok 2)
        /\ snd (__delete_ifb_device host self m)
           = mkMachine (snd (ifb_exit_codes host self (world m)))
               (calls m ++
                [ verify_network_interface (ifb_device self);
                  SubprocessRunner_run
                    ("tc qdisc del dev " ++ ifb_device self ++ " root");
                  SubprocessRunner_run
                    ("ip link set dev " ++ ifb_device self ++ " down");
                  SubprocessRunner_run
                    ("ip link delete " ++ ifb_device self ++ " type ifb") ])%list).
Proof.
  intros W host self m. split; intros Hf.
  - unfold __delete_ifb_device. unfold_methods. now rewrite Hf.
  - unfold __delete_ifb_device, ifb_exit_codes. unfold_methods. rewrite Hf.
    unfold_methods.
    destruct (host_run host _ (world m)) as [d1 w1]. unfold_methods.
    destruct (host_run host _ w1) as [d2 w2]. unfold_methods.
    destruct (host_run host _ w2) as [d3 w3]. unfold_methods.
    split; [reflexivity|].
    split; [|split].
    + intros He.
      assert (H0 : (d1 =? 0) = true \/ (d2 =? 0) = true \/ (d3 =? 0) = true).
      { rewrite !Z.eqb_eq.
        inversion He as [? ? H|? ? He1]; subst; [now left|].
        inversion He1 as [? ? H|? ? He2]; subst; [right; now left|].
        inversion He2 as [? ? H|? ? He3]; subst; [right; now right|].
        inversion He3. }
      destruct (d1 =? 0), (d2 =? 0), (d3 =? 0); cbn [negb andb fst];
        try reflexivity.
      destruct H0 as [H0|[H0|H0]]; discriminate.
    + intros Ha.
      inversion Ha as [|? ? H1 Ha1]; subst.
      inversion Ha1 as [|? ? H2 Ha2]; subst.
      inversion Ha2 as [|? ? H3 _]; subst.
      apply Z.eqb_neq in H1, H2, H3. rewrite H1, H2, H3. reflexivity.
    + rewrite <- !app_assoc.
      destruct (negb (d1 =? 0) && (negb (d2 =? 0) && (negb (d3 =? 0) && true)));
        reflexivity.
Qed.

(** X10 on a host without the redirect device, and on one where it is
    there and only the last command succeeds. *)
Lemma delete_ifb_device_examples :
  fst (__delete_ifb_device Scripted.host (eth0 None)
         (Scripted.boot (Scripted.mkWorld ["eth0"] [] 0)))
  = Err (NetworkInterfaceNotFoundError (Msg "ifb6682"))
  /\ fst (__delete_ifb_device Scripted.host (eth0 None)
            (Scripted.boot
               (Scripted.mkWorld ["eth0"; "ifb6682"]
                  ["ip link delete ifb6682 type ifb"] 0)))
     = Ok 0.
Proof.
  split.
  - rewrite (proj1 (delete_ifb_device_outcomes _ Scripted.host (eth0 None)
                      (Scripted.boot (Scripted.mkWorld ["eth0"] [] 0)))
               eq_refl).
    reflexivity.
  - apply (proj2 (delete_ifb_device_outcomes _ Scripted.host (eth0 None)
                    (Scripted.boot
                       (Scripted.mkWorld ["eth0"; "ifb6682"]
                          ["ip link delete ifb6682 type ifb"] 0)))
             eq_refl).
    right. right. left. reflexivity.
Defined.

Lemma delete_tc_same_device_and_id {W : Type} (host : Host W)
    (a b : TrafficControl) (m : machine W) :
  device a = device b ->
  qdisc_major_id a = qdisc_major_id b ->
  delete_tc host a m = delete_tc host b m.
Proof.
  intros Hd Hq. rewrite !delete_tc_steps.
  assert (Hi : ifb_device a = ifb_device b)
    by (unfold ifb_device; now rewrite Hq).
  assert (Hs : teardown_steps host a (world m)
               = teardown_steps host b (world m))
    by (unfold teardown_steps; now rewrite Hd, Hi).
  rewrite Hs. unfold teardown_calls. now rewrite Hd, Hi.
Qed.

(** X11. A teardown only reads the device name and the major id of the
    object: two objects on the same device with the same major id are
    torn down by the same calls with the same result, whatever their
    directions and emulation parameters.  In particular the teardown of
    an OUTGOING object also removes the ingress qdisc and the redirect
    device. *)
Theorem delete_tc_reads_device_and_major_id_only :
  forall (W : Type) (host : Host W) (a b : TrafficControl) (m : machine W),
    device a = device b ->
    qdisc_major_id a = qdisc_major_id b ->
    delete_tc host a m = delete_tc host b m
    /\ calls (snd (delete_tc host a m))
       = (calls m
          ++ teardown_calls b
               (ifb_found (fst (teardown_steps host b (world m)))))%list.
Proof.
  intros W host a b m Hd Hq.
  rewrite (delete_tc_same_device_and_id host a b m Hd Hq).
  split; [reflexivity|]. now rewrite delete_tc_steps.
Qed.

(** X11 on "eth0": the object of a bandwidth limit on outgoing packets
    and the object of the other direction. *)
Lemma delete_tc_same_for_both_directions :
  delete_tc Scripted.host
    (eth0_netem (Some 1000%Q) None None None None None)
    (Scripted.boot
       (Scripted.mkWorld ["eth0"; "ifb6682"]
          ["tc qdisc del dev eth0 ingress"] 0))
  = delete_tc Scripted.host (eth0 TrafficDirection.INCOMING)
      (Scripted.boot
         (Scripted.mkWorld ["eth0"; "ifb6682"]
            ["tc qdisc del dev eth0 ingress"] 0)).
Proof.
  apply (proj1 (delete_tc_reads_device_and_major_id_only _ Scripted.host
                  (eth0_netem (Some 1000%Q) None None None None None)
                  (eth0 TrafficDirection.INCOMING)
                  (Scripted.boot
                     (Scripted.mkWorld ["eth0"; "ifb6682"]
                        ["tc qdisc del dev eth0 ingress"] 0))
                  eq_refl eq_refl)).
Defined.

(** ** Names derived from the major id *)

Lemma format_d_inj (a b : Z) : format_d a = format_d b -> a = b.
Proof.
  unfold format_d. intros H. apply DecimalZ.to_int_inj.
  assert (Hs : forall n,
            DecimalString.NilZero.int_of_string
              (DecimalString.NilZero.string_of_int (Z.to_int n))
            = Some (Z.to_int n)).
  { intros n. apply DecimalString.NilZero.isi; destruct n; cbn [Z.to_int];
      try discriminate; intros E; injection E;
      apply DecimalPos.Unsigned.to_uint_nonnil. }
  pose proof (Hs a) as Ha. rewrite H, Hs in Ha. congruence.
Qed.

Lemma format_x_inj (a b : Z) : format_x a = format_x b -> a = b.
Proof.
  unfold format_x. intros H. apply HexadecimalZ.to_int_inj.
  assert (Hs : forall n,
            HexadecimalString.NilZero.int_of_string
              (HexadecimalString.NilZero.string_of_int (Z.to_hex_int n))
            = Some (Z.to_hex_int n)).
  { intros n. apply HexadecimalString.NilZero.isi; destruct n;
      cbn [Z.to_hex_int]; try discriminate; intros E; injection E;
      apply HexadecimalPos.Unsigned.to_uint_nonnil. }
  pose proof (Hs a) as Ha. rewrite H, Hs in Ha. congruence.
Qed.

(** X12. The name of the redirect device and the hexadecimal form of the
    major id determine the major id: two objects have the same redirect
    device exactly when they have the same major id, and likewise for the
    hexadecimal form. *)
Theorem ifb_device_names_the_major_id :
  forall a b : TrafficControl,
    (ifb_device a = ifb_device b <-> qdisc_major_id a = qdisc_major_id b)
    /\ (qdisc_major_id_str a = qdisc_major_id_str b
        <-> qdisc_major_id a = qdisc_major_id b).
Proof.
  intros a b. unfold ifb_device, qdisc_major_id_str. split; split.
  - cbn [append]. intros H. injection H as H. now apply format_d_inj.
  - now intros ->.
  - apply format_x_inj.
  - now intros ->.
Qed.

Lemma in_nibbles (n : Z) : 0 <= n < 16 -> In n nibbles.
Proof.
  intros H. unfold nibbles. rewrite <- (Z2Nat.id n) by lia.
  apply in_map, in_seq. lia.
Qed.

Lemma format_x_of_three_digits (n1 n2 n3 : Z) :
  0 <= n1 < 16 -> 0 <= n2 < 16 -> 0 <= n3 < 16 ->
  format_x (4096 + 256 * n1 + 16 * n2 + n3)
  = String "1" (String (hex_digit n1)
      (String (hex_digit n2) (String (hex_digit n3) EmptyString))).
Proof.
  intros H1 H2 H3.
  assert (Hall :
    forallb (fun x1 => forallb (fun x2 => forallb (fun x3 =>
      String.eqb (format_x (4096 + 256 * x1 + 16 * x2 + x3))
        (String "1" (String (hex_digit x1)
           (String (hex_digit x2) (String (hex_digit x3) EmptyString)))))
      nibbles) nibbles) nibbles = true) by (vm_compute; reflexivity).
  rewrite forallb_forall in Hall.
  pose proof (Hall n1 (in_nibbles n1 H1)) as Hall1.
  rewrite forallb_forall in Hall1.
  pose proof (Hall1 n2 (in_nibbles n2 H2)) as Hall2.
  rewrite forallb_forall in Hall2.
  pose proof (Hall2 n3 (in_nibbles n3 H3)) as Hall3.
  now apply String.eqb_eq in Hall3.
Qed.

Lemma format_d_four_digits (n : Z) :
  4096 <= n <= 8191 -> String.length (format_d n) = 4%nat.
Proof.
  intros H.
  assert (Hall :
    forallb (fun x => Nat.eqb (String.length (format_d x)) 4)
      (map Z.of_nat (seq 4096 4096)) = true) by (vm_compute; reflexivity).
  rewrite forallb_forall in Hall.
  apply Nat.eqb_eq, Hall.
  rewrite <- (Z2Nat.id n) by lia. apply in_map, in_seq. lia.
Qed.

Lemma init_result {W : Type} (host : Host W)
    (device0 : string) (direction0 bandwidth_rate0 : pystr)
    (latency_ms0 latency_distro_ms0 packet_loss_rate0 corruption_rate0
       : option Q)
    (network0 : pystr) (port0 : option Z) (src_network0 : pystr)
    (is_enable_iptables0 : bool) (m : machine W) :
  exists id,
    __get_device_qdisc_major_id
      (mkTrafficControl device0 direction0 None latency_ms0
         latency_distro_ms0 packet_loss_rate0 corruption_rate0 network0
         src_network0 port0 is_enable_iptables0 0) = Ok id
    /\ 4096 <= id <= 8191
    /\ __init__ host device0 direction0 bandwidth_rate0 latency_ms0
         latency_distro_ms0 packet_loss_rate0 corruption_rate0 network0 port0
         src_network0 is_enable_iptables0 m
       = (Ok (mkTrafficControl device0 direction0
                (host_humanreadable_to_kilobyte host bandwidth_rate0)
                latency_ms0 latency_distro_ms0 packet_loss_rate0
                corruption_rate0 network0 src_network0 port0
                is_enable_iptables0 id),
          mkMachine (host_iptables_enable host is_enable_iptables0 (world m))
            (calls m
             ++ [IptablesMangleController_enable is_enable_iptables0])%list).
Proof.
  unfold __init__.
  match goal with
  | |- context [__get_device_qdisc_major_id ?s] =>
      destruct (device_qdisc_major_id_range s) as [id [Hid Hr]]
  end.
  exists id. rewrite Hid. unfold_methods. now repeat split.
Qed.

(** X13. For an object that [__init__] built, the hexadecimal form of the
    major id is the digit 1 followed by the first three digits of the MD5
    hexdigest of the device name, and reading it back in base 16 gives
    the major id; the name of the redirect device is "ifb" followed by
    four decimal digits, seven characters in all. *)
Theorem constructed_names :
  forall (W : Type) (host : Host W)
         (device0 : string) (direction0 bandwidth_rate0 : pystr)
         (latency_ms0 latency_distro_ms0 packet_loss_rate0 corruption_rate0
            : option Q)
         (network0 : pystr) (port0 : option Z) (src_network0 : pystr)
         (is_enable_iptables0 : bool) (m m' : machine W)
         (self : TrafficControl),
    __init__ host device0 direction0 bandwidth_rate0 latency_ms0
      latency_distro_ms0 packet_loss_rate0 corruption_rate0 network0 port0
      src_network0 is_enable_iptables0 m = (Ok self, m') ->
    qdisc_major_id_str self
    = ("1" ++ substring 0 3 (md5_hexdigest (six_b device0)))%string
    /\ int_16 (qdisc_major_id_str self) = Ok (qdisc_major_id self)
    /\ String.length (ifb_device self) = 7%nat
    /\ get_tc_device (set_direction self TrafficDirection.INCOMING)
       = Ok (ifb_device self).
Proof.
  intros W host device0 direction0 bandwidth_rate0 latency_ms0
    latency_distro_ms0 packet_loss_rate0 corruption_rate0 network0 port0
    src_network0 is_enable_iptables0 m m' self Hinit.
  destruct (init_result host device0 direction0 bandwidth_rate0 latency_ms0
              latency_distro_ms0 packet_loss_rate0 corruption_rate0 network0
              port0 src_network0 is_enable_iptables0 m)
    as (id & Hid & Hr & Hrun).
  rewrite Hrun in Hinit.
  assert (Hself : self
                  = mkTrafficControl device0 direction0
                      (host_humanreadable_to_kilobyte host bandwidth_rate0)
                      latency_ms0 latency_distro_ms0 packet_loss_rate0
                      corruption_rate0 network0 src_network0 port0
                      is_enable_iptables0 id) by congruence.
  subst self. unfold qdisc_major_id_str, ifb_device.
  cbn [qdisc_major_id].
  pose proof (device_qdisc_major_id_value
                (mkTrafficControl device0 direction0 None latency_ms0
                   latency_distro_ms0 packet_loss_rate0 corruption_rate0
                   network0 src_network0 port0 is_enable_iptables0 0)) as Hv.
  cbv zeta in Hv. cbn [device] in Hv.
  set (a := MD5.sA (MD5.final_state (six_b device0))) in *.
  assert (H0 : 0 <= a mod 256 < 256) by (apply Z.mod_pos_bound; lia).
  assert (H1 : 0 <= (a / 256) mod 256 < 256) by (apply Z.mod_pos_bound; lia).
  assert (Hn1 : 0 <= (a mod 256) / 16 < 16)
    by (split; [apply Z.div_pos; lia | apply Z.div_lt_upper_bound; lia]).
  assert (Hn2 : 0 <= (a mod 256) mod 16 < 16) by (apply Z.mod_pos_bound; lia).
  assert (Hn3 : 0 <= ((a / 256) mod 256) / 16 < 16)
    by (split; [apply Z.div_pos; lia | apply Z.div_lt_upper_bound; lia]).
  assert (He : forall x y : Z, Ok x = Ok y -> x = y) by congruence.
  assert (Hidv : id = 4096 + 256 * ((a mod 256) / 16)
                      + 16 * ((a mod 256) mod 16) + ((a / 256) mod 256) / 16).
  { apply He. rewrite <- Hid. exact Hv. }
  assert (Hx : format_x id
               = String "1" (String (hex_digit ((a mod 256) / 16))
                   (String (hex_digit ((a mod 256) mod 16))
                      (String (hex_digit (((a / 256) mod 256) / 16))
                         EmptyString)))).
  { rewrite Hidv. now apply format_x_of_three_digits. }
  split; [|split; [|split]].
  - rewrite Hx, hexdigest_prefix. fold a. reflexivity.
  - rewrite Hx. rewrite Hidv.
    apply (int_16_three_digits _ _ _ Hn1 Hn2 Hn3).
  - cbn [append String.length]. now rewrite format_d_four_digits.
  - reflexivity.
Qed.

(** X13 on "eth0": the names are "1a1a" and "ifb6682". *)
Lemma constructed_names_eth0 :
  exists self m',
    __init__ Scripted.host "eth0" TrafficDirection.INCOMING (Some "1M")
      None None None None None None None true
      (Scripted.boot (Scripted.mkWorld ["eth0"] [] 0)) = (Ok self, m')
    /\ qdisc_major_id_str self = "1a1a"
    /\ ifb_device self = "ifb6682"
    /\ String.length (ifb_device self) = 7%nat.
Proof.
  eexists. eexists. split; [vm_compute; reflexivity|].
  split; [reflexivity|]. split; [reflexivity|].
  refine (proj1 (proj2 (proj2
    (constructed_names _ Scripted.host "eth0" TrafficDirection.INCOMING
       (Some "1M") None None None None None None None true
       (Scripted.boot (Scripted.mkWorld ["eth0"] [] 0)) _ _ _)))).
  vm_compute. reflexivity.
Defined.

(** ** Netem major ids across devices *)

(** X14. For one direction the netem major id determines the base id.
    Across directions it does not: the OUTGOING id on a base id and the
    INCOMING id on another are equal exactly when the first base id is
    the second plus one, so two devices whose base ids are neighbours
    share a netem major id.  From a base id between [0x1000] and
    [0x1fff] the ids lie between [0x100a] and [0x200a]. *)
Theorem netem_qdisc_major_ids_of_neighbours :
  forall out inc : TrafficControl,
    direction out = TrafficDirection.OUTGOING ->
    direction inc = TrafficDirection.INCOMING ->
    (forall b1 b2,
        get_netem_qdisc_major_id out b1 = get_netem_qdisc_major_id inc b2
        <-> b1 = b2 + 1)
    /\ (forall b1 b2,
          get_netem_qdisc_major_id out b1 = get_netem_qdisc_major_id out b2
          <-> b1 = b2)
    /\ (forall b1 b2,
          get_netem_qdisc_major_id inc b1 = get_netem_qdisc_major_id inc b2
          <-> b1 = b2)
    /\ (forall b, 0x1000 <= b <= 0x1fff ->
          exists i o,
            get_netem_qdisc_major_id out b = Ok o
            /\ get_netem_qdisc_major_id inc b = Ok i
            /\ 0x100a <= o <= 0x2009 /\ 0x100b <= i <= 0x200a).
Proof.
  intros out inc Ho Hi.
  assert (He : forall x y : Z, Ok x = Ok y <-> x = y)
    by (split; congruence).
  split; [|split; [|split]].
  - intros b1 b2.
    rewrite (netem_qdisc_major_id_outgoing out b1 Ho),
      (netem_qdisc_major_id_incoming inc b2 Hi), He. lia.
  - intros b1 b2.
    rewrite !(netem_qdisc_major_id_outgoing out _ Ho), He. lia.
  - intros b1 b2.
    rewrite !(netem_qdisc_major_id_incoming inc _ Hi), He. lia.
  - intros b Hb. exists (b + 10 + 1), (b + 10 + 0).
    rewrite (netem_qdisc_major_id_outgoing out b Ho),
      (netem_qdisc_major_id_incoming inc b Hi).
    repeat split; lia.
Qed.

(** X14 on "eth0", base id 6682, and a device of base id 6683. *)
Lemma netem_qdisc_major_ids_of_neighbours_example :
  get_netem_qdisc_major_id (eth0 TrafficDirection.OUTGOING) 6683
  = get_netem_qdisc_major_id (eth0 TrafficDirection.INCOMING) 6682.
Proof.
  apply (proj1 (netem_qdisc_major_ids_of_neighbours
                  (eth0 TrafficDirection.OUTGOING)
                  (eth0 TrafficDirection.INCOMING) eq_refl eq_refl)).
  reflexivity.
Defined.

(** ** The constructor *)



(** X16. Two objects that [__init__] built on the same device name have
    the same major id and the same redirect device, whatever their other
    arguments; so one tears down, call for call, what the other does: an
    object built from the device name alone removes the redirect device
    that an INCOMING configuration set up. *)
Theorem constructed_on_the_same_device :
  forall (W : Type) (host : Host W) (device0 : string)
         (direction1 bandwidth_rate1 : pystr)
         (latency_ms1 latency_distro_ms1 packet_loss_rate1 corruption_rate1
            : option Q)
         (network1 : pystr) (port1 : option Z) (src_network1 : pystr)
         (is_enable_iptables1 : bool)
         (direction2 bandwidth_rate2 : pystr)
         (latency_ms2 latency_distro_ms2 packet_loss_rate2 corruption_rate2
            : option Q)
         (network2 : pystr) (port2 : option Z) (src_network2 : pystr)
         (is_enable_iptables2 : bool)
         (m1 m1' m2 m2' : machine W) (self1 self2 : TrafficControl),
    __init__ host device0 direction1 bandwidth_rate1 latency_ms1
      latency_distro_ms1 packet_loss_rate1 corruption_rate1 network1 port1
      src_network1 is_enable_iptables1 m1 = (Ok self1, m1') ->
    __init__ host device0 direction2 bandwidth_rate2 latency_ms2
      latency_distro_ms2 packet_loss_rate2 corruption_rate2 network2 port2
      src_network2 is_enable_iptables2 m2 = (Ok self2, m2') ->
    qdisc_major_id self1 = qdisc_major_id self2
    /\ ifb_device self1 = ifb_device self2
    /\ (forall m, delete_tc host self1 m = delete_tc host self2 m).
Proof.
  intros W host device0
    direction1 bandwidth_rate1 latency_ms1 latency_distro_ms1
    packet_loss_rate1 corruption_rate1 network1 port1 src_network1
    is_enable_iptables1
    direction2 bandwidth_rate2 latency_ms2 latency_distro_ms2
    packet_loss_rate2 corruption_rate2 network2 port2 src_network2
    is_enable_iptables2 m1 m1' m2 m2' self1 self2 H1 H2.
  destruct (init_result host device0 direction1 bandwidth_rate1 latency_ms1
              latency_distro_ms1 packet_loss_rate1 corruption_rate1 network1
              port1 src_network1 is_enable_iptables1 m1)
    as (id1 & Hid1 & _ & Hrun1).
  destruct (init_result host device0 direction2 bandwidth_rate2 latency_ms2
              latency_distro_ms2 packet_loss_rate2 corruption_rate2 network2
              port2 src_network2 is_enable_iptables2 m2)
    as (id2 & Hid2 & _ & Hrun2).
  rewrite Hrun1 in H1. rewrite Hrun2 in H2.
  assert (E1 : self1
               = mkTrafficControl device0 direction1
                   (host_humanreadable_to_kilobyte host bandwidth_rate1)
                   latency_ms1 latency_distro_ms1 packet_loss_rate1
                   corruption_rate1 network1 src_network1 port1
                   is_enable_iptables1 id1) by congruence.
  assert (E2 : self2
               = mkTrafficControl device0 direction2
                   (host_humanreadable_to_kilobyte host bandwidth_rate2)
                   latency_ms2 latency_distro_ms2 packet_loss_rate2
                   corruption_rate2 network2 src_network2 port2
                   is_enable_iptables2 id2) by congruence.
  assert (Hsame : Ok id1 = Ok id2).
  { rewrite <- Hid1, <- Hid2.
    now apply device_qdisc_major_id_same_device. }
  assert (Hq : qdisc_major_id self1 = qdisc_major_id self2)
    by (subst self1 self2; cbn [qdisc_major_id]; congruence).
  split; [exact Hq|]. split.
  - unfold ifb_device. now rewrite Hq.
  - intros m. apply delete_tc_same_device_and_id.
    + now subst self1 self2.
    + exact Hq.
Qed.

(** X16 on "eth0": an INCOMING object with a latency, and an object
    built from the device name alone. *)
Lemma constructed_on_eth0 :
  exists self1 self2,
    fst (__init__ Scripted.host "eth0" TrafficDirection.INCOMING None
           (Some 50%Q) None None None None None None true
           (Scripted.boot (Scripted.mkWorld ["eth0"] [] 0))) = Ok self1
    /\ fst (__init__ Scripted.host "eth0" None None None None None None
              None None None true
              (Scripted.boot (Scripted.mkWorld ["eth0"; "ifb6682"] [] 0)))
       = Ok self2
    /\ ifb_device self1 = ifb_device self2.
Proof.
  eexists. eexists.
  split; [vm_compute; reflexivity|]. split; [vm_compute; reflexivity|].
  refine (proj1 (proj2
    (constructed_on_the_same_device _ Scripted.host "eth0"
       TrafficDirection.INCOMING None (Some 50%Q) None None None None None
       None true
       None None None None None None None None None true
       (Scripted.boot (Scripted.mkWorld ["eth0"] [] 0)) _
       (Scripted.boot (Scripted.mkWorld ["eth0"; "ifb6682"] [] 0)) _
       _ _ _ _))); vm_compute; reflexivity.
Defined.
